(** * IntelliChat persistence layer

    A shallow embedding of
    - [src/database/connection.py]   (the [DatabaseManager] class),
    - [scripts/check_data_integrity.py] (the diagnostic script),
    together with the part of the storage engine the two files rely on.

    The SQL text that the Python code hands to the engine is embedded as
    a small abstract syntax ([Sqlite.stmt]); the data definition
    statements of [_initialize_database] are transcribed constructor by
    constructor.  The engine itself is modelled as an executable
    interpreter of that syntax, following the SQLite documentation
    (constraint enforcement, per-connection [foreign_keys] pragma,
    [sqlite_master], [sqlite_sequence], automatic indexes, triggers).

    Values are NULL, INTEGER, TEXT and BLOB.  REAL values need floating
    point and are left out; no statement of either file writes one. *)

From stdpp Require Import gmap strings list fin_maps pretty.
From Stdlib Require Import ZArith Ascii DecimalString.

Set Default Proof Using "Type".

(** ** Results of fallible operations *)

Inductive result (E A : Type) : Type :=
| Ok (a : A)
| Err (e : E).
Arguments Ok {E A} a.
Arguments Err {E A} e.

#[global] Instance result_ret {E} : MRet (result E) := λ A a, Ok a.
#[global] Instance result_bind {E} : MBind (result E) :=
  λ A B f m, match m with Ok a => f a | Err e => Err e end.

Definition is_ok {E A} (r : result E A) : bool :=
  match r with Ok _ => true | Err _ => false end.

(** ** The storage engine *)

Module Sqlite.

(** *** Values and type affinity *)

Inductive value : Type :=
| VNull
| VInt (n : Z)
| VText (s : string)
| VBlob (b : string).

#[global] Instance value_eq_dec : EqDecision value.
Proof. solve_decision. Defined.

Abbreviation row := (gmap string value).

(** Declared column types occurring in the schema. *)
Inductive decl_type : Type := INTEGER | TEXT | TIMESTAMP | REAL.

Inductive affinity : Type := AffInteger | AffText | AffNumeric | AffReal.

(** "INT" gives INTEGER affinity, "TEXT" gives TEXT, "REAL" gives REAL and
    any other name (here TIMESTAMP) gives NUMERIC. *)
Definition type_affinity (t : decl_type) : affinity :=
  match t with
  | INTEGER => AffInteger
  | TEXT => AffText
  | REAL => AffReal
  | TIMESTAMP => AffNumeric
  end.

Definition text_to_integer (s : string) : option Z :=
  Z.of_int <$> NilZero.int_of_string s.

Definition integer_to_text (n : Z) : string :=
  NilZero.string_of_int (Z.to_int n).

(** A column with TEXT affinity stores numbers as text; a column with a
    numeric affinity stores text that is an integer literal as an
    integer.  Everything else is stored as it was supplied. *)
Definition apply_affinity (a : affinity) (v : value) : value :=
  match a, v with
  | AffText, VInt n => VText (integer_to_text n)
  | (AffInteger | AffNumeric | AffReal), VText s =>
      match text_to_integer s with
      | Some n => VInt n
      | None => v
      end
  | _, _ => v
  end.

(** Comparison operators yield NULL ([None]) when an operand is NULL.
    Values of different storage classes are never equal. *)
Definition sql_eq (a b : value) : option bool :=
  match a, b with
  | VNull, _ | _, VNull => None
  | _, _ => Some (bool_decide (a = b))
  end.

(** A WHERE clause keeps a row only when the condition is true. *)
Definition is_true (o : option bool) : bool :=
  match o with Some true => true | _ => false end.

(** A CHECK constraint fails only when the condition is false. *)
Definition is_false (o : option bool) : bool :=
  match o with Some false => true | _ => false end.

(** Storage-class order used by [<], [>=], MIN, MAX and ORDER BY:
    NULL, then numbers, then text (byte order), then blobs. *)
Definition value_leb (a b : value) : bool :=
  match a, b with
  | VNull, _ => true
  | _, VNull => false
  | VInt x, VInt y => (x <=? y)%Z
  | VInt _, _ => true
  | _, VInt _ => false
  | VText x, VText y => String.leb x y
  | VText _, _ => true
  | _, VText _ => false
  | VBlob x, VBlob y => String.leb x y
  end.

(** [a >= b] as an SQL condition. *)
Definition sql_ge (a b : value) : option bool :=
  match a, b with
  | VNull, _ | _, VNull => None
  | _, _ => Some (value_leb b a)
  end.

(** *** Syntax of the statements *)

Inductive expr : Type :=
| CURRENT_TIMESTAMP
| NEW (col : string)
| Lit (v : value).

(** [col IN ('a', 'b', ...)] *)
Inductive check_expr : Type :=
| IN (col : string) (alternatives : list string).

Inductive column_constraint : Type :=
| PRIMARY_KEY_AUTOINCREMENT
| NOT_NULL
| UNIQUE
| DEFAULT (e : expr)
| CHECK (c : check_expr).

Record column : Type := Column {
  col_name : string;
  col_type : decl_type;
  col_constraints : list column_constraint
}.

Inductive on_delete : Type := NO_ACTION | CASCADE.

Record foreign_key : Type := FOREIGN_KEY {
  fk_column : string;
  fk_table : string;
  fk_ref : string;
  fk_on_delete : on_delete
}.

Inductive sort_order : Type := ASC | DESC.

(** [UPDATE tbl SET col = e WHERE wcol = we] *)
Inductive trigger_stmt : Type :=
| UPDATE_SET_WHERE (tbl col : string) (e : expr) (wcol : string) (we : expr).

Inductive stmt : Type :=
| CREATE_TABLE (if_not_exists : bool) (name : string)
    (cols : list column) (fks : list foreign_key)
| CREATE_INDEX (if_not_exists : bool) (name tbl : string)
    (cols : list (string * sort_order))
| CREATE_TRIGGER_AFTER_INSERT (if_not_exists : bool) (name tbl : string)
    (body : list trigger_stmt)
| INSERT_INTO (tbl : string) (assignments : list (string * value))
| DELETE_FROM_WHERE (tbl col : string) (v : value).

(** Python's sqlite3 module opens a transaction before INSERT, UPDATE,
    DELETE and REPLACE only. *)
Definition is_dml (s : stmt) : bool :=
  match s with
  | INSERT_INTO _ _ | DELETE_FROM_WHERE _ _ _ => true
  | _ => false
  end.

(** *** Databases *)

Inductive object_def : Type :=
| TableDef (cols : list column) (fks : list foreign_key)
| InternalTable
| IndexDef (cols : list (string * sort_order))
| AutoIndex (col : string)
| TriggerDef (body : list trigger_stmt).

(** One row of [sqlite_master]. *)
Record schema_object : Type := SchemaObject {
  obj_name : string;
  obj_tbl_name : string;
  obj_def : object_def
}.

Definition obj_type (o : schema_object) : string :=
  match obj_def o with
  | TableDef _ _ | InternalTable => "table"
  | IndexDef _ | AutoIndex _ => "index"
  | TriggerDef _ => "trigger"
  end.

Record database : Type := Database {
  sqlite_master : list schema_object;
  table_rows : gmap string (list row);
  sqlite_sequence : gmap string Z
}.

Definition empty_database : database :=
  {| sqlite_master := []; table_rows := ∅; sqlite_sequence := ∅ |}.

Inductive constraint : Type :=
| NotNull (tbl col : string)
| Check (tbl col : string)
| Unique (tbl col : string)
| ForeignKey
| DatatypeMismatch.

Inductive error : Type :=
| IntegrityError (c : constraint)
| OperationalError (msg : string)
| DatabaseError (msg : string).

Definition has_object_in (m : list schema_object) (ty name : string) : bool :=
  existsb (λ o, String.eqb (obj_type o) ty && String.eqb (obj_name o) name) m.

Definition has_object (ty name : string) (d : database) : bool :=
  has_object_in (sqlite_master d) ty name.

Fixpoint find_table_in (m : list schema_object) (name : string)
  : option (list column * list foreign_key) :=
  match m with
  | [] => None
  | o :: m' =>
      match obj_def o with
      | TableDef cols fks =>
          if String.eqb (obj_name o) name then Some (cols, fks)
          else find_table_in m' name
      | _ => find_table_in m' name
      end
  end.

Definition find_table (d : database) (name : string)
  : result error (list column * list foreign_key) :=
  match find_table_in (sqlite_master d) name with
  | Some t => Ok t
  | None => Err (OperationalError ("no such table: " +:+ name))
  end.

Definition rows_of (d : database) (tbl : string) : list row :=
  default [] (table_rows d !! tbl).

Definition set_rows (tbl : string) (rs : list row) (d : database) : database :=
  {| sqlite_master := sqlite_master d;
     table_rows := <[tbl := rs]> (table_rows d);
     sqlite_sequence := sqlite_sequence d |}.

Definition find_column (cols : list column) (name : string) : option column :=
  find (λ c, String.eqb (col_name c) name) cols.

Definition has_constraint (k : column_constraint → bool) (c : column) : bool :=
  existsb k (col_constraints c).

Definition is_pk (c : column) : bool :=
  has_constraint (λ k, match k with PRIMARY_KEY_AUTOINCREMENT => true | _ => false end) c.
Definition is_not_null (c : column) : bool :=
  has_constraint (λ k, match k with NOT_NULL => true | _ => false end) c.
Definition is_unique (c : column) : bool :=
  has_constraint (λ k, match k with UNIQUE => true | _ => false end) c.

Definition column_default (c : column) : option expr :=
  head (omap (λ k, match k with DEFAULT e => Some e | _ => None end)
             (col_constraints c)).

Definition column_checks (c : column) : list check_expr :=
  omap (λ k, match k with CHECK e => Some e | _ => None end) (col_constraints c).

Definition field (r : row) (col : string) : value :=
  default VNull (r !! col).

(** *** Data definition *)

(** Python's [str.startswith]. *)
Definition startswith (s p : string) : bool := String.prefix p s.

Definition add_objects (os : list schema_object) (d : database) : database :=
  {| sqlite_master := sqlite_master d ++ os;
     table_rows := table_rows d;
     sqlite_sequence := sqlite_sequence d |}.

(** Every UNIQUE column gets an automatic index; an INTEGER PRIMARY KEY
    is the rowid itself and needs none. *)
Definition autoindexes (tbl : string) (cols : list column) : list schema_object :=
  imap (λ i c, SchemaObject ("sqlite_autoindex_" +:+ tbl +:+ "_" +:+ pretty (S i))
                            tbl (AutoIndex (col_name c)))
       (List.filter is_unique cols).

(** The first table with an AUTOINCREMENT column brings the internal
    table [sqlite_sequence] into existence. *)
Definition sequence_table (cols : list column) (d : database) : list schema_object :=
  if existsb is_pk cols && negb (has_object "table" "sqlite_sequence" d)
  then [SchemaObject "sqlite_sequence" "sqlite_sequence" InternalTable]
  else [].

Definition create_table (if_not_exists : bool) (name : string)
    (cols : list column) (fks : list foreign_key) (d : database)
  : result error database :=
  if startswith name "sqlite_" then
    Err (OperationalError ("object name reserved for internal use: " +:+ name))
  else if has_object "table" name d then
    if if_not_exists then Ok d
    else Err (OperationalError ("table " +:+ name +:+ " already exists"))
  else if has_object "index" name d then
    Err (OperationalError ("there is already an index named " +:+ name))
  else
    Ok (set_rows name []
          (add_objects (SchemaObject name name (TableDef cols fks)
                          :: autoindexes name cols ++ sequence_table cols d) d)).

Definition create_index (if_not_exists : bool) (name tbl : string)
    (cols : list (string * sort_order)) (d : database)
  : result error database :=
  '(tcols, _) ← find_table d tbl;
  if startswith name "sqlite_" then
    Err (OperationalError ("object name reserved for internal use: " +:+ name))
  else if has_object "table" name d then
    Err (OperationalError ("there is already a table named " +:+ name))
  else if has_object "index" name d then
    if if_not_exists then Ok d
    else Err (OperationalError ("index " +:+ name +:+ " already exists"))
  else if forallb (λ c, bool_decide (is_Some (find_column tcols c.1))) cols then
    Ok (add_objects [SchemaObject name tbl (IndexDef cols)] d)
  else Err (OperationalError "no such column").

Definition create_trigger (if_not_exists : bool) (name tbl : string)
    (body : list trigger_stmt) (d : database) : result error database :=
  _ ← find_table d tbl;
  if startswith name "sqlite_" then
    Err (OperationalError ("object name reserved for internal use: " +:+ name))
  else if has_object "trigger" name d then
    if if_not_exists then Ok d
    else Err (OperationalError ("trigger " +:+ name +:+ " already exists"))
  else Ok (add_objects [SchemaObject name tbl (TriggerDef body)] d).

(** *** Rows and constraints *)

Definition eval_expr (now : string) (new : row) (e : expr) : value :=
  match e with
  | CURRENT_TIMESTAMP => VText now
  | NEW c => field new c
  | Lit v => v
  end.

Fixpoint assoc (k : string) (l : list (string * value)) : option value :=
  match l with
  | [] => None
  | (k', v) :: l' => if String.eqb k' k then Some v else assoc k l'
  end.

(** A column left out of the INSERT takes its DEFAULT (NULL without one);
    an explicit NULL stays NULL. *)
Definition initial_value (now : string) (assignments : list (string * value))
    (c : column) : value :=
  match assoc (col_name c) assignments with
  | Some v => v
  | None =>
      match column_default c with
      | Some e => eval_expr now ∅ e
      | None => VNull
      end
  end.

Definition stored_value (now : string) (assignments : list (string * value))
    (c : column) : value :=
  apply_affinity (type_affinity (col_type c)) (initial_value now assignments c).

Definition build_row (now : string) (cols : list column)
    (assignments : list (string * value)) : row :=
  list_to_map (map (λ c, (col_name c, stored_value now assignments c)) cols).

Definition eval_check (r : row) (c : check_expr) : option bool :=
  match c with
  | IN col alternatives =>
      match field r col with
      | VNull => None
      | v => Some (existsb (λ a, bool_decide (v = VText a)) alternatives)
      end
  end.

Definition not_null_violations (tbl : string) (cols : list column) (r : row)
  : list constraint :=
  omap (λ c, if is_not_null c && bool_decide (field r (col_name c) = VNull)
             then Some (NotNull tbl (col_name c)) else None) cols.

Definition check_violations (tbl : string) (cols : list column) (r : row)
  : list constraint :=
  omap (λ c, if existsb (λ k, is_false (eval_check r k)) (column_checks c)
             then Some (Check tbl (col_name c)) else None) cols.

Definition holds (col : string) (v : value) (r : row) : bool :=
  is_true (sql_eq (field r col) v).

(** The rowid alias and the UNIQUE columns admit no second row with the
    same non-NULL value. *)
Definition unique_violations (tbl : string) (cols : list column)
    (others : list row) (r : row) : list constraint :=
  omap (λ c, if (is_pk c || is_unique c)
                && existsb (holds (col_name c) (field r (col_name c))) others
             then Some (Unique tbl (col_name c)) else None) cols.

(** Checked only on connections that switched [foreign_keys] on. *)
Definition foreign_key_violations (fks : list foreign_key) (d : database)
    (r : row) : list constraint :=
  omap (λ k, match field r (fk_column k) with
             | VNull => None
             | v => if existsb (holds (fk_ref k) v) (rows_of d (fk_table k))
                    then None else Some ForeignKey
             end) fks.

Definition violations (foreign_keys : bool) (tbl : string) (cols : list column)
    (fks : list foreign_key) (d : database) (r : row) : list constraint :=
  not_null_violations tbl cols r
  ++ check_violations tbl cols r
  ++ unique_violations tbl cols (rows_of d tbl) r
  ++ (if foreign_keys then foreign_key_violations fks d r else []).

Definition max_rowid (pk : string) (rs : list row) : Z :=
  foldr (λ r m, match field r pk with VInt n => Z.max n m | _ => m end) 0%Z rs.

Definition last_sequence (d : database) (tbl : string) : Z :=
  default 0%Z (sqlite_sequence d !! tbl).

(** AUTOINCREMENT: one more than the largest rowid the table ever had. *)
Definition assign_rowid (tbl : string) (cols : list column) (d : database)
    (r : row) : result error row :=
  match find is_pk cols with
  | None => Ok r
  | Some c =>
      match field r (col_name c) with
      | VNull =>
          let n := (Z.max (max_rowid (col_name c) (rows_of d tbl))
                          (last_sequence d tbl) + 1)%Z in
          if (n <=? 9223372036854775807)%Z
          then Ok (<[col_name c := VInt n]> r)
          else Err (OperationalError "database or disk is full")
      | VInt _ => Ok r
      | _ => Err (IntegrityError DatatypeMismatch)
      end
  end.

Definition store_row (tbl : string) (cols : list column) (r : row)
    (d : database) : database :=
  {| sqlite_master := sqlite_master d;
     table_rows := <[tbl := rows_of d tbl ++ [r]]> (table_rows d);
     sqlite_sequence :=
       match find is_pk cols with
       | Some c =>
           match field r (col_name c) with
           | VInt n => <[tbl := Z.max (last_sequence d tbl) n]> (sqlite_sequence d)
           | _ => sqlite_sequence d
           end
       | None => sqlite_sequence d
       end |}.

(** *** Triggers *)

Definition triggers_on (d : database) (tbl : string) : list (list trigger_stmt) :=
  omap (λ o, match obj_def o with
             | TriggerDef body =>
                 if String.eqb (obj_tbl_name o) tbl then Some body else None
             | _ => None
             end) (sqlite_master d).

Definition update_violations (tbl : string) (c : column) (v : value)
    (hit rest : list row) : list constraint :=
  (if is_not_null c && bool_decide (v = VNull) && negb (bool_decide (hit = []))
   then [NotNull tbl (col_name c)] else [])
  ++ (if negb (bool_decide (column_checks c = []))
         && existsb (λ r, existsb (λ k, is_false (eval_check (<[col_name c := v]> r) k))
                                  (column_checks c)) hit
      then [Check tbl (col_name c)] else [])
  ++ (if (is_pk c || is_unique c) && negb (bool_decide (v = VNull))
         && ((1 <? length hit)%nat
             || negb (bool_decide (hit = [])) && existsb (holds (col_name c) v) rest)
      then [Unique tbl (col_name c)] else []).

Definition exec_trigger_stmt (now : string) (new : row) (s : trigger_stmt)
    (d : database) : result error database :=
  match s with
  | UPDATE_SET_WHERE tbl col e wcol we =>
      '(cols, _) ← find_table d tbl;
      match find_column cols col, find_column cols wcol with
      | Some c, Some wc =>
          let v := apply_affinity (type_affinity (col_type c)) (eval_expr now new e) in
          let key := apply_affinity (type_affinity (col_type wc)) (eval_expr now new we) in
          let rs := rows_of d tbl in
          match update_violations tbl c v (List.filter (holds wcol key) rs)
                  (List.filter (λ r, negb (holds wcol key r)) rs) with
          | k :: _ => Err (IntegrityError k)
          | [] =>
              Ok (set_rows tbl
                    (map (λ r, if holds wcol key r then <[col := v]> r else r) rs) d)
          end
      | _, _ => Err (OperationalError "no such column")
      end
  end.

Fixpoint exec_trigger_body (now : string) (new : row) (body : list trigger_stmt)
    (d : database) : result error database :=
  match body with
  | [] => Ok d
  | s :: body' =>
      d' ← exec_trigger_stmt now new s d;
      exec_trigger_body now new body' d'
  end.

Fixpoint fire_triggers (now : string) (new : row)
    (ts : list (list trigger_stmt)) (d : database) : result error database :=
  match ts with
  | [] => Ok d
  | body :: ts' =>
      d' ← exec_trigger_body now new body d;
      fire_triggers now new ts' d'
  end.

(** *** INSERT and DELETE *)

Definition insert_into (foreign_keys : bool) (now : string) (tbl : string)
    (assignments : list (string * value)) (d : database)
  : result error database :=
  '(cols, fks) ← find_table d tbl;
  if forallb (λ a, bool_decide (is_Some (find_column cols a.1))) assignments then
    r ← assign_rowid tbl cols d (build_row now cols assignments);
    match violations foreign_keys tbl cols fks d r with
    | k :: _ => Err (IntegrityError k)
    | [] => fire_triggers now r (triggers_on d tbl) (store_row tbl cols r d)
    end
  else Err (OperationalError ("table " +:+ tbl +:+ " has no such column")).

(** The foreign keys of other tables that point at [tbl]. *)
Definition referencing (d : database) (tbl : string) : list (string * foreign_key) :=
  flat_map (λ o, match obj_def o with
                 | TableDef _ fks =>
                     map (pair (obj_name o))
                         (List.filter (λ k, String.eqb (fk_table k) tbl) fks)
                 | _ => []
                 end) (sqlite_master d).

Fixpoint foldM {A} (f : A → database → result error database) (l : list A)
    (d : database) : result error database :=
  match l with
  | [] => Ok d
  | a :: l' => d' ← f a d; foldM f l' d'
  end.

(** Foreign key actions run as nested triggers, which the engine nests at
    most [depth] levels deep.  Without [foreign_keys] the ON DELETE clause
    is parsed and stored but never acted upon. *)
Fixpoint delete_rows (depth : nat) (foreign_keys : bool) (tbl : string)
    (doomed : row → bool) (d : database) : result error database :=
  let gone := List.filter doomed (rows_of d tbl) in
  let d1 := set_rows tbl (List.filter (λ r, negb (doomed r)) (rows_of d tbl)) d in
  if negb foreign_keys || bool_decide (gone = []) then Ok d1
  else
    match depth with
    | O => Err (OperationalError "too many levels of trigger recursion")
    | S depth' =>
        foldM (λ '(child, k) d',
                 let orphan r :=
                   existsb (λ p, holds (fk_column k) (field p (fk_ref k)) r) gone in
                 match fk_on_delete k with
                 | CASCADE => delete_rows depth' foreign_keys child orphan d'
                 | NO_ACTION =>
                     if existsb orphan (rows_of d' child)
                     then Err (IntegrityError ForeignKey) else Ok d'
                 end)
              (referencing d tbl) d1
    end.

Definition max_trigger_depth : nat := 1000.

Definition delete_from_where (foreign_keys : bool) (tbl col : string) (v : value)
    (d : database) : result error database :=
  '(cols, _) ← find_table d tbl;
  match find_column cols col with
  | Some c =>
      delete_rows max_trigger_depth foreign_keys tbl
                  (holds col (apply_affinity (type_affinity (col_type c)) v)) d
  | None => Err (OperationalError ("no such column: " +:+ col))
  end.

(** [now] is the value CURRENT_TIMESTAMP has throughout the statement. *)
Definition exec (foreign_keys : bool) (now : string) (s : stmt) (d : database)
  : result error database :=
  match s with
  | CREATE_TABLE ine name cols fks => create_table ine name cols fks d
  | CREATE_INDEX ine name tbl cols => create_index ine name tbl cols d
  | CREATE_TRIGGER_AFTER_INSERT ine name tbl body => create_trigger ine name tbl body d
  | INSERT_INTO tbl assignments => insert_into foreign_keys now tbl assignments d
  | DELETE_FROM_WHERE tbl col v => delete_from_where foreign_keys tbl col v d
  end.

(** *** Queries *)

(** [SELECT name FROM sqlite_master WHERE type = ty] *)
Definition select_name_from_sqlite_master (ty : string) (d : database) : list string :=
  map obj_name (List.filter (λ o, String.eqb (obj_type o) ty) (sqlite_master d)).

(** [SELECT COUNT( * ) FROM tbl] *)
Definition select_count (tbl : string) (d : database) : result error Z :=
  if String.eqb tbl "sqlite_sequence" && has_object "table" tbl d then
    Ok (Z.of_nat (size (sqlite_sequence d)))
  else
    _ ← find_table d tbl;
    Ok (Z.of_nat (length (rows_of d tbl))).

Definition duplicates (col : string) (rs : list row) : bool :=
  existsb (λ r, (1 <? length (List.filter (holds col (field r col)) rs))%nat) rs.

Definition table_problems (tbl : string) (cols : list column) (rs : list row)
  : list string :=
  flat_map (λ r,
      map (λ k, match k with
                | NotNull t c => "NULL value in " +:+ t +:+ "." +:+ c
                | _ => "CHECK constraint failed in " +:+ tbl
                end)
          (not_null_violations tbl cols r ++ check_violations tbl cols r)) rs
  ++ omap (λ c, if (is_pk c || is_unique c) && duplicates (col_name c) rs
                then Some ("non-unique entry in index on " +:+ tbl +:+ "." +:+ col_name c)
                else None) cols.

(** [PRAGMA integrity_check]: the first row of the result is "ok" when
    no stored row breaks a NOT NULL, CHECK or UNIQUE constraint.  Foreign
    keys are not part of this check. *)
Definition pragma_integrity_check (d : database) : string :=
  match flat_map (λ o, match obj_def o with
                       | TableDef cols _ =>
                           table_problems (obj_name o) cols (rows_of d (obj_name o))
                       | _ => []
                       end) (sqlite_master d) with
  | [] => "ok"
  | problem :: _ => problem
  end.

End Sqlite.

(** ** Python exceptions *)

Inductive exception : Type :=
| KeyboardInterrupt
| SystemExit
| GeneratorExit
| sqlite3_Error (e : Sqlite.error)
| FileNotFoundError (p : list string)
| FileExistsError (p : list string)
| NotADirectoryError (p : list string)
| OtherException (name : string).

(** [isinstance(e, Exception)]: the first three classes derive from
    [BaseException] only. *)
Definition isinstance_Exception (e : exception) : bool :=
  match e with
  | KeyboardInterrupt | SystemExit | GeneratorExit => false
  | _ => true
  end.

(** ** pathlib and the file system *)

Module Pathlib.

Abbreviation path := (list string).

(** [Path.parent] *)
Definition parent (p : path) : path := removelast p.

(** [p / name] *)
Definition div (p : path) (name : string) : path := p ++ [name].
Infix "</>" := div (at level 40, left associativity).

(** [Path.name] *)
Definition name (p : path) : string := List.last p "".

Inductive node : Type :=
| Dir
| File (size : Z)
| DbFile (d : Sqlite.database).

Abbreviation filesystem := (gmap (list string) node).

(** [Path.exists] *)
Definition exists_ (fs : filesystem) (p : path) : bool :=
  bool_decide (is_Some (fs !! p)).

(** [Path.mkdir(exist_ok=True)], without [parents=True] *)
Definition mkdir_exist_ok (p : path) (fs : filesystem)
  : result exception unit * filesystem :=
  match fs !! p with
  | Some Dir => (Ok tt, fs)
  | Some _ => (Err (FileExistsError p), fs)
  | None =>
      match fs !! parent p with
      | Some Dir => (Ok tt, <[p := Dir]> fs)
      | Some _ => (Err (NotADirectoryError p), fs)
      | None => (Err (FileNotFoundError p), fs)
      end
  end.

End Pathlib.

(** ** The sqlite3 module *)

Module Sqlite3.
Import Pathlib.

Inductive call : Type :=
| Called_execute (s : Sqlite.stmt)
| Called_commit
| Called_rollback
| Called_close.

Record connection : Type := Connection {
  database_file : path;
  on_disk : node;              (* the file: the last committed state *)
  working : Sqlite.database;   (* the state this connection sees *)
  in_transaction : bool;
  foreign_keys : bool;
  closed : bool;
  calls : list call
}.

(** An empty file is an empty database; any other non-database content
    makes every statement fail. *)
Definition database_of (n : node) : result Sqlite.error Sqlite.database :=
  match n with
  | DbFile d => Ok d
  | File 0 => Ok Sqlite.empty_database
  | File _ => Err (Sqlite.DatabaseError "file is not a database")
  | Dir => Err (Sqlite.OperationalError "unable to open database file")
  end.

Definition committed (n : node) : Sqlite.database :=
  match database_of n with
  | Ok d => d
  | Err _ => Sqlite.empty_database
  end.

Definition unable_to_open : exception :=
  sqlite3_Error (Sqlite.OperationalError "unable to open database file").

(** [sqlite3.connect(p)]: opens the file, creating an empty one when the
    directory exists and the file does not.  Foreign key enforcement is
    off on every new connection. *)
Definition connect (p : path) (fs : filesystem)
  : result exception connection * filesystem :=
  let fresh n :=
    {| database_file := p; on_disk := n; working := committed n;
       in_transaction := false; foreign_keys := false; closed := false;
       calls := [] |} in
  match fs !! p with
  | Some Dir => (Err unable_to_open, fs)
  | Some n => (Ok (fresh n), fs)
  | None =>
      match fs !! parent p with
      | Some Dir => (Ok (fresh (File 0)), <[p := File 0]> fs)
      | _ => (Err unable_to_open, fs)
      end
  end.

Definition called (k : call) (c : connection) : connection :=
  {| database_file := database_file c; on_disk := on_disk c;
     working := working c; in_transaction := in_transaction c;
     foreign_keys := foreign_keys c; closed := closed c;
     calls := calls c ++ [k] |}.

(** [Connection.execute]: a transaction is opened implicitly before
    INSERT and DELETE; any other statement outside a transaction takes
    effect on the file at once. *)
Definition execute (now : string) (s : Sqlite.stmt) (c : connection)
  : result exception unit * connection :=
  let c := called (Called_execute s) c in
  match database_of (on_disk c) with
  | Err e => (Err (sqlite3_Error e), c)
  | Ok _ =>
      let tx := in_transaction c || Sqlite.is_dml s in
      match Sqlite.exec (foreign_keys c) now s (working c) with
      | Err e =>
          (Err (sqlite3_Error e),
           {| database_file := database_file c; on_disk := on_disk c;
              working := working c; in_transaction := tx;
              foreign_keys := foreign_keys c; closed := closed c;
              calls := calls c |})
      | Ok d =>
          (Ok tt,
           {| database_file := database_file c;
              on_disk := if tx then on_disk c else DbFile d;
              working := d; in_transaction := tx;
              foreign_keys := foreign_keys c; closed := closed c;
              calls := calls c |})
      end
  end.

(** [PRAGMA foreign_keys = ON/OFF]: ignored inside a transaction. *)
Definition pragma_foreign_keys (on : bool) (c : connection) : connection :=
  {| database_file := database_file c; on_disk := on_disk c;
     working := working c; in_transaction := in_transaction c;
     foreign_keys := if in_transaction c then foreign_keys c else on;
     closed := closed c; calls := calls c |}.

(** [Connection.commit] *)
Definition commit (c : connection) : connection :=
  let c := called Called_commit c in
  {| database_file := database_file c;
     on_disk := if in_transaction c then DbFile (working c) else on_disk c;
     working := working c; in_transaction := false;
     foreign_keys := foreign_keys c; closed := closed c; calls := calls c |}.

(** [Connection.rollback] *)
Definition rollback (c : connection) : connection :=
  let c := called Called_rollback c in
  {| database_file := database_file c; on_disk := on_disk c;
     working := if in_transaction c then committed (on_disk c) else working c;
     in_transaction := false;
     foreign_keys := foreign_keys c; closed := closed c; calls := calls c |}.

(** [Connection.close]: what was not committed is lost. *)
Definition close (c : connection) : connection :=
  let c := called Called_close c in
  {| database_file := database_file c; on_disk := on_disk c;
     working := if in_transaction c then committed (on_disk c) else working c;
     in_transaction := false;
     foreign_keys := foreign_keys c; closed := true; calls := calls c |}.

(** What the body of a [with] block may do with the connection it is
    handed: run statements, commit, roll back, or raise. *)
Inductive action : Type :=
| Execute (now : string) (s : Sqlite.stmt)
| Pragma_foreign_keys (on : bool)
| Commit
| Rollback
| Raise (e : exception).

Fixpoint run_block (block : list action) (c : connection)
  : result exception unit * connection :=
  match block with
  | [] => (Ok tt, c)
  | a :: block' =>
      match a with
      | Execute now s =>
          match execute now s c with
          | (Ok _, c') => run_block block' c'
          | (Err e, c') => (Err e, c')
          end
      | Pragma_foreign_keys on => run_block block' (pragma_foreign_keys on c)
      | Commit => run_block block' (commit c)
      | Rollback => run_block block' (rollback c)
      | Raise e => (Err e, c)
      end
  end.

End Sqlite3.

(** ** src/database/connection.py *)

Module Connection.
Import Pathlib Sqlite Sqlite3.

Definition IF_NOT_EXISTS : bool := true.

(** The eight statements of [_initialize_database], in source order. *)

Definition create_conversations : stmt :=
  CREATE_TABLE IF_NOT_EXISTS "conversations"
    [ Column "id" INTEGER [PRIMARY_KEY_AUTOINCREMENT];
      Column "session_id" TEXT [NOT_NULL; UNIQUE];
      Column "created_at" TIMESTAMP [DEFAULT CURRENT_TIMESTAMP];
      Column "updated_at" TIMESTAMP [DEFAULT CURRENT_TIMESTAMP];
      Column "title" TEXT [];
      Column "model_name" TEXT [NOT_NULL] ]
    [].

Definition create_messages : stmt :=
  CREATE_TABLE IF_NOT_EXISTS "messages"
    [ Column "id" INTEGER [PRIMARY_KEY_AUTOINCREMENT];
      Column "conversation_id" INTEGER [NOT_NULL];
      Column "role" TEXT
        [NOT_NULL; CHECK (IN "role" ["user"; "assistant"; "system"])];
      Column "content" TEXT [NOT_NULL];
      Column "timestamp" TIMESTAMP [DEFAULT CURRENT_TIMESTAMP];
      Column "token_count" INTEGER [] ]
    [ FOREIGN_KEY "conversation_id" "conversations" "id" CASCADE ].

Definition create_model_usage : stmt :=
  CREATE_TABLE IF_NOT_EXISTS "model_usage"
    [ Column "id" INTEGER [PRIMARY_KEY_AUTOINCREMENT];
      Column "model_name" TEXT [NOT_NULL];
      Column "tokens_used" INTEGER [NOT_NULL];
      Column "response_time" REAL [];
      Column "timestamp" TIMESTAMP [DEFAULT CURRENT_TIMESTAMP] ]
    [].

Definition create_idx_messages_conversation : stmt :=
  CREATE_INDEX IF_NOT_EXISTS "idx_messages_conversation"
    "messages" [("conversation_id", ASC)].

Definition create_idx_conversations_session : stmt :=
  CREATE_INDEX IF_NOT_EXISTS "idx_conversations_session"
    "conversations" [("session_id", ASC)].

Definition create_idx_messages_timestamp : stmt :=
  CREATE_INDEX IF_NOT_EXISTS "idx_messages_timestamp"
    "messages" [("timestamp", DESC)].

Definition create_idx_model_usage_timestamp : stmt :=
  CREATE_INDEX IF_NOT_EXISTS "idx_model_usage_timestamp"
    "model_usage" [("timestamp", DESC)].

Definition create_update_conversation_timestamp : stmt :=
  CREATE_TRIGGER_AFTER_INSERT IF_NOT_EXISTS "update_conversation_timestamp"
    "messages"
    [ UPDATE_SET_WHERE "conversations" "updated_at" CURRENT_TIMESTAMP
        "id" (NEW "conversation_id") ].

Definition schema_statements : list stmt :=
  [ create_conversations;
    create_messages;
    create_model_usage;
    create_idx_messages_conversation;
    create_idx_conversations_session;
    create_idx_messages_timestamp;
    create_idx_model_usage_timestamp;
    create_update_conversation_timestamp ].

Section Paths.
(** Where [connection.py] lies. *)
Variable __file__ : path.

Definition PROJECT_ROOT : path := parent (parent (parent __file__)).
Definition DATA_DIR : path := PROJECT_ROOT </> "data".
Definition CONVERSATIONS_DIR : path := DATA_DIR </> "conversations".
Definition DB_PATH : path := CONVERSATIONS_DIR </> "conversations.db".
End Paths.

Module DatabaseManager.

Record t : Type := Self { db_path : path }.

(** The scope [with self.get_connection() as conn: block].  The result
    is what leaves the scope (normal exit or the exception), the file
    system afterwards, and the connection object as it was left. *)
Definition get_connection (self : t) (block : list action) (fs : filesystem)
  : result exception unit * filesystem * option connection :=
  match connect (db_path self) fs with
  | (Err e, fs) => (Err e, fs, None)
  | (Ok conn, fs) =>
      let '(r, conn) :=
        match run_block block conn with      (* try: yield conn *)
        | (Ok _, conn) => (Ok tt, commit conn)           (* conn.commit() *)
        | (Err e, conn) =>
            if isinstance_Exception e        (* except Exception as e: *)
            then (Err e, rollback conn)      (*   conn.rollback(); raise *)
            else (Err e, conn)
        end in
      let conn := close conn in              (* finally: conn.close() *)
      (r, <[db_path self := on_disk conn]> fs, Some conn)
  end.

Section Methods.
Variable __file__ : path.

(** [_ensure_directories] *)
Definition _ensure_directories (self : t) (fs : filesystem)
  : result exception unit * filesystem :=
  match mkdir_exist_ok (DATA_DIR __file__) fs with
  | (Err e, fs) => (Err e, fs)
  | (Ok _, fs) =>
      match mkdir_exist_ok (CONVERSATIONS_DIR __file__) fs with
      | (Err e, fs) => (Err e, fs)
      | (Ok _, fs) => mkdir_exist_ok (DATA_DIR __file__ </> "logs") fs
      end
  end.

(** [_initialize_database]; [now] is the clock reading handed to the
    engine with each statement. *)
Definition _initialize_database (self : t) (now : string) (fs : filesystem)
  : result exception unit * filesystem * option connection :=
  get_connection self (map (Execute now) schema_statements ++ [Commit]) fs.

(** [__init__(self, db_path=None)] *)
Definition __init__ (db_path : option path) (now : string) (fs : filesystem)
  : result exception t * filesystem :=
  let self := Self (default (DB_PATH __file__) db_path) in
  match _ensure_directories self fs with
  | (Err e, fs) => (Err e, fs)
  | (Ok _, fs) =>
      match _initialize_database self now fs with
      | (Err e, fs, _) => (Err e, fs)
      | (Ok _, fs, _) => (Ok self, fs)
      end
  end.

(** [check_integrity] *)
Definition check_integrity (self : t) (fs : filesystem)
  : result exception bool * filesystem :=
  match connect (db_path self) fs with
  | (Err e, fs) => (Err e, fs)
  | (Ok conn, fs) =>
      match database_of (on_disk conn) with
      | Err e => (Err (sqlite3_Error e), fs)
      | Ok d => (Ok (String.eqb (pragma_integrity_check d) "ok"), fs)
      end
  end.
End Methods.

End DatabaseManager.

End Connection.

(** ** scripts/check_data_integrity.py *)

Module CheckDataIntegrity.
Import Pathlib Sqlite Sqlite3.

(** The parts of a formatted string.  Numbers are kept as numbers; the
    constructor records the format specification applied to them. *)
Inductive piece : Type :=
| Str (s : string)
| PathStr (p : path)
| Int (n : Z)                  (* {n} *)
| IntComma (n : Z)             (* {n:,} *)
| Fixed0 (n : Z)               (* {n:.0f} *)
| MegaBytes (bytes : Z)        (* {bytes / (1024 * 1024):.2f} *)
| Val (v : value)
| ErrorStr (e : Sqlite.error).

Abbreviation text := (list piece).

(** One call of a printing function. *)
Inductive line : Type :=
| print (t : text)
| print_header (t : text)
| print_success (t : text)
| print_warning (t : text)
| print_error (t : text).

Definition nl : string := String "010"%char EmptyString.
Definition ESC : string := String "027"%char EmptyString.

Module Colors.
Definition GREEN : string := ESC +:+ "[92m".
Definition YELLOW : string := ESC +:+ "[93m".
Definition RED : string := ESC +:+ "[91m".
Definition BLUE : string := ESC +:+ "[94m".
Definition RESET : string := ESC +:+ "[0m".
End Colors.

(** [s * n] *)
Fixpoint times (s : string) (n : nat) : string :=
  match n with
  | O => ""
  | S n' => s +:+ times s n'
  end.

(** [size / (1024 * 1024) > mb].  Dividing by a power of two and rounding
    is monotone and leaves whole numbers of megabytes exact, so the
    comparison of the quotient is this comparison of byte counts. *)
Definition size_mb_gt (size mb : Z) : bool := (mb * (1024 * 1024) <? size)%Z.

Definition endswith (s suffix : string) : bool :=
  String.prefix (String.rev suffix) (String.rev s).

(** Python truth value of a fetched column. *)
Definition truthy (v : value) : bool :=
  match v with
  | VNull | VInt 0 | VText "" | VBlob "" => false
  | _ => true
  end.

(** *** Aggregate queries of [get_statistics] *)

Fixpoint tally (v : value) (groups : list (value * Z)) : list (value * Z) :=
  match groups with
  | [] => [(v, 1%Z)]
  | (w, n) :: groups' =>
      if bool_decide (v = w) then (w, (n + 1)%Z) :: groups'
      else if value_leb v w then (v, 1%Z) :: groups
      else (w, n) :: tally v groups'
  end.

(** [SELECT col, COUNT( * ) FROM tbl GROUP BY col] *)
Definition select_group_count (col tbl : string) (d : database)
  : result error (list (value * Z)) :=
  '(cols, _) ← find_table d tbl;
  if bool_decide (is_Some (find_column cols col))
  then Ok (foldr (λ r, tally (field r col)) [] (rows_of d tbl))
  else Err (OperationalError ("no such column: " +:+ col)).

Fixpoint insert_desc (g : value * Z) (l : list (value * Z)) : list (value * Z) :=
  match l with
  | [] => [g]
  | h :: l' => if (h.2 <? g.2)%Z then g :: l else h :: insert_desc g l'
  end.

(** [... ORDER BY usage_count DESC] *)
Definition order_by_count_desc (l : list (value * Z)) : list (value * Z) :=
  foldr insert_desc [] l.

(** [SELECT SUM(col) FROM tbl WHERE col IS NOT NULL]; NULL over no rows. *)
Definition select_sum (col tbl : string) (d : database) : result error value :=
  '(cols, _) ← find_table d tbl;
  if bool_decide (is_Some (find_column cols col)) then
    let vs := List.filter (λ v, negb (bool_decide (v = VNull)))
                          (map (λ r, field r col) (rows_of d tbl)) in
    let total := foldr (λ v s, match v with VInt n => (n + s)%Z | _ => s end) 0%Z vs in
    if bool_decide (vs = []) then Ok VNull
    else if ((-9223372036854775808 <=? total) && (total <=? 9223372036854775807))%Z
    then Ok (VInt total)
    else Err (OperationalError "integer overflow")
  else Err (OperationalError ("no such column: " +:+ col)).

Definition extremum (better : value → value → bool) (vs : list value) : value :=
  foldr (λ v m, match v, m with
                | VNull, _ => m
                | _, VNull => v
                | _, _ => if better v m then v else m
                end) VNull vs.

(** [SELECT MIN(col), MAX(col) FROM tbl] *)
Definition select_min_max (col tbl : string) (d : database)
  : result error (value * value) :=
  '(cols, _) ← find_table d tbl;
  if bool_decide (is_Some (find_column cols col)) then
    let vs := map (λ r, field r col) (rows_of d tbl) in
    Ok (extremum value_leb vs, extremum (λ a b, value_leb b a) vs)
  else Err (OperationalError ("no such column: " +:+ col)).

Section Script.
(** Where [check_data_integrity.py] lies. *)
Variable __file__ : path.
(** The size the engine gives the file of a database, and the size the
    file system reports for a directory. *)
Variable db_file_size : database → Z.
Variable dir_size : Z.

Definition PROJECT_ROOT : path := parent (parent __file__).
Definition DATA_DIR : path := PROJECT_ROOT </> "data".
Definition CONVERSATIONS_DIR : path := DATA_DIR </> "conversations".
Definition LOGS_DIR : path := DATA_DIR </> "logs".
Definition DB_PATH : path := CONVERSATIONS_DIR </> "conversations.db".

(** [Path.stat().st_size] of an existing node *)
Definition st_size (n : node) : Z :=
  match n with
  | File size => size
  | DbFile d => db_file_size d
  | Dir => dir_size
  end.

Definition size_of (fs : filesystem) (p : path) : Z :=
  from_option st_size 0%Z (fs !! p).

(** [check_directories] *)
Definition check_directories (fs : filesystem) : list line * bool :=
  let directories :=
    [ ("Data directory", DATA_DIR);
      ("Conversations directory", CONVERSATIONS_DIR);
      ("Logs directory", LOGS_DIR) ] in
  foldl (λ '(out, all_exist) '(name, p),
           if exists_ fs p
           then (out ++ [print_success [Str name; Str " exists: "; PathStr p]],
                 all_exist)
           else (out ++ [print_error [Str name; Str " missing: "; PathStr p]],
                 false))
        ([print_header [Str "Checking Directories"]], true) directories.

Definition required_tables : list string :=
  ["conversations"; "messages"; "model_usage"].

(** The loop over [required_tables] in [check_database]. *)
Fixpoint report_tables (tables required : list string) (d : database)
  : list line * result error unit :=
  match required with
  | [] => ([], Ok tt)
  | table :: required' =>
      if bool_decide (table ∈ tables) then
        match select_count table d with
        | Ok count =>
            let '(out, r) := report_tables tables required' d in
            (print_success [Str "  "; Str table]
               :: print [Str "    Rows: "; Int count] :: out, r)
        | Err e => ([print_success [Str "  "; Str table]], Err e)
        end
      else
        let '(out, r) := report_tables tables required' d in
        (print_error [Str "  "; Str table; Str " (missing)"] :: out, r)
  end.

(** [check_database] *)
Definition check_database (fs : filesystem) : list line * bool :=
  let header := [print_header [Str "Checking Database"]] in
  match fs !! DB_PATH with
  | None =>
      (header ++
       [ print_error [Str "Database file not found: "; PathStr DB_PATH];
         print_warning [Str "Run: python scripts/initialize_data.py"] ],
       false)
  | Some n =>
      let size_bytes := st_size n in
      let intro :=
        header ++
        [ print_success [Str "Database file exists: "; PathStr DB_PATH];
          print [Str "  Size: "; MegaBytes size_bytes; Str " MB (";
                 IntComma size_bytes; Str " bytes)"] ] in
      match database_of n with
      | Err e => (intro ++ [print_error [Str "Database error: "; ErrorStr e]], false)
      | Ok d =>
          let tables := select_name_from_sqlite_master "table" d in
          let '(rows, r) := report_tables tables required_tables d in
          let listing := intro ++ [print [Str nl; Str "  Tables:"]] ++ rows in
          match r with
          | Err e =>
              (listing ++ [print_error [Str "Database error: "; ErrorStr e]], false)
          | Ok _ =>
              let indexes := select_name_from_sqlite_master "index" d in
              (listing
               ++ [print [Str nl; Str "  Indexes: "; Int (Z.of_nat (length indexes))]]
               ++ map (λ idx, print [Str "    - "; Str idx])
                      (List.filter (λ idx, negb (startswith idx "sqlite_")) indexes)
               ++ [print_success [Str "Database structure is valid"]],
               true)
          end
      end
  end.

(** [check_database_integrity] *)
Definition check_database_integrity (fs : filesystem) : list line * bool :=
  let header := [print_header [Str "Database Integrity Check"]] in
  match fs !! DB_PATH with
  | None =>
      (header ++
       [print_warning [Str "Database doesn't exist, skipping integrity check"]],
       false)
  | Some n =>
      match database_of n with
      | Err e =>
          (header ++ [print_error [Str "Integrity check failed: "; ErrorStr e]], false)
      | Ok d =>
          let result := pragma_integrity_check d in
          if String.eqb result "ok"
          then (header ++ [print_success [Str "Database integrity: OK"]], true)
          else (header ++
                [print_error [Str "Database integrity issues: "; Str result]], false)
      end
  end.

(** The body of the loop in [check_logs]. *)
Definition check_log (fs : filesystem) (log_file : string) : list line :=
  match fs !! (LOGS_DIR </> log_file) with
  | Some n =>
      let size := st_size n in
      if size_mb_gt size 100 then
        [ print_warning [Str log_file; Str " is large: "; MegaBytes size; Str " MB"];
          print [Str "  Consider archiving: python scripts/archive_logs.py"] ]
      else if size_mb_gt size 10 then
        [ print_success [Str log_file; Str " exists ("; MegaBytes size; Str " MB)"] ]
      else
        [ print_success [Str log_file; Str " exists ("; Fixed0 size; Str " KB)"] ]
  | None =>
      [ print_warning [Str log_file; Str " not found (will be created on first use)"] ]
  end.

Definition log_files : list string := ["app.log"; "error.log"; "api.log"].

(** [check_logs] *)
Definition check_logs (fs : filesystem) : list line :=
  print_header [Str "Checking Log Files"] :: flat_map (check_log fs) log_files.

(** The queries and prints inside the [try] of [get_statistics]. *)
Definition report_statistics (d : database) : list line * result error unit :=
  match select_count "conversations" d with
  | Err e => ([], Err e)
  | Ok total_conversations =>
  let out := [print [Str "Total Conversations: "; Int total_conversations]] in
  match select_count "messages" d with
  | Err e => (out, Err e)
  | Ok total_messages =>
  let out := out ++ [print [Str "Total Messages: "; Int total_messages]] in
  match select_group_count "role" "messages" d with
  | Err e => (out, Err e)
  | Ok roles =>
  let out := out ++ [print [Str nl; Str "Messages by Role:"]]
                 ++ map (λ '(role, count), print [Str "  "; Val role; Str ": "; Int count])
                        roles in
  match select_sum "token_count" "messages" d with
  | Err e => (out, Err e)
  | Ok total =>
  let total_tokens := if truthy total then total else VInt 0 in
  let out := out ++ [print [Str nl; Str "Total Tokens Used: ";
                            match total_tokens with
                            | VInt n => IntComma n
                            | v => Val v
                            end]] in
  match select_group_count "model_name" "conversations" d with
  | Err e => (out, Err e)
  | Ok models =>
  let out := out ++ [print [Str nl; Str "Model Usage:"]]
                 ++ map (λ '(model, count),
                           print [Str "  "; Val model; Str ": "; Int count;
                                  Str " conversations"])
                        (order_by_count_desc models) in
  match select_min_max "created_at" "conversations" d with
  | Err e => (out, Err e)
  | Ok (min_date, max_date) =>
      (out ++ (if truthy min_date && truthy max_date
               then [ print [Str nl; Str "First Conversation: "; Val min_date];
                      print [Str "Last Conversation: "; Val max_date] ]
               else []),
       Ok tt)
  end end end end end end.

(** [get_statistics] *)
Definition get_statistics (fs : filesystem) : list line :=
  let header := [print_header [Str "Database Statistics"]] in
  match fs !! DB_PATH with
  | None => header ++ [print_warning [Str "Database doesn't exist"]]
  | Some n =>
      match database_of n with
      | Err e => header ++ [print_error [Str "Error getting statistics: "; ErrorStr e]]
      | Ok d =>
          match report_statistics d with
          | (out, Ok _) => header ++ out
          | (out, Err e) =>
              header ++ out ++ [print_error [Str "Error getting statistics: "; ErrorStr e]]
          end
      end
  end.

(** [LOGS_DIR.glob("*.log")] *)
Definition glob_logs (fs : filesystem) : list (path * node) :=
  match fs !! LOGS_DIR with
  | Some Dir =>
      List.filter (λ '(p, _), bool_decide (p = LOGS_DIR </> name p)
                              && endswith (name p) ".log")
                  (map_to_list fs)
  | _ => []
  end.

(** [suggest_maintenance] *)
Definition suggest_maintenance (fs : filesystem) : list line :=
  let database_suggestion :=
    match fs !! DB_PATH with
    | Some n =>
        if size_mb_gt (st_size n) 100 then
          [ [Str "Database is large (>100MB). Consider:"; Str nl;
             Str "  - Vacuum: sqlite3 data/conversations/conversations.db 'VACUUM;'";
             Str nl; Str "  - Archive old conversations"] ]
        else []
    | None => []
    end in
  let log_suggestions :=
    omap (λ '(log_file, n),
            if size_mb_gt (st_size n) 50 then
              Some [Str (name log_file); Str " is large (>50MB). Consider:"; Str nl;
                    Str "  - Archive: python scripts/archive_logs.py"; Str nl;
                    Str "  - Rotate logs"]
            else None) (glob_logs fs) in
  let suggestions := database_suggestion ++ log_suggestions in
  print_header [Str "Maintenance Suggestions"] ::
  (if bool_decide (suggestions = []) then
     [print_success [Str "No maintenance needed at this time"]]
   else
     imap (λ i suggestion,
             print ([Str nl; Int (Z.of_nat (S i)); Str ". "] ++ suggestion))
          suggestions).

(** [main]: everything printed, and the value returned, which
    [sys.exit] turns into the exit code.  [now] is
    [datetime.now().strftime('%Y-%m-%d %H:%M:%S')]. *)
Definition main (now : string) (fs : filesystem) : list line * Z :=
  let banner :=
    [ print [Str nl; Str Colors.BLUE; Str (times "=" 60)];
      print [Str "IntelliChat Data Integrity Check"];
      print [Str (times "=" 60); Str Colors.RESET];
      print [Str "Timestamp: "; Str now] ] in
  let '(out1, c1) := check_directories fs in
  let '(out2, c2) := check_database fs in
  let '(out3, c3) := check_database_integrity fs in
  let checks := [c1; c2; c3] in
  let out :=
    banner ++ out1 ++ out2 ++ out3
    ++ check_logs fs ++ get_statistics fs ++ suggest_maintenance fs
    ++ [print_header [Str "Summary"]] in
  if forallb id checks then
    (out ++ [ print_success [Str "All checks passed!"];
              print [Str nl; Str "Your IntelliChat data is healthy and ready to use."] ],
     0%Z)
  else
    (out ++ [ print_warning [Str "Some checks failed"];
              print [Str nl; Str "Recommended actions:"];
              print [Str "1. Review the errors above"];
              print [Str "2. Run: python scripts/initialize_data.py"];
              print [Str "3. Check documentation: data/README.md"] ],
     1%Z).
End Script.

End CheckDataIntegrity.

(** ** Notions used in the statements *)

Module Schema.
Import Sqlite Connection.

(** The database [_initialize_database] leaves in a new file. *)
Definition initialized_database : database :=
  match foldM (exec false "") schema_statements empty_database with
  | Ok d => d
  | Err _ => empty_database
  end.

(** A database is initialized when its schema is the one above; its rows
    are arbitrary. *)
Definition initialized (d : database) : Prop :=
  sqlite_master d = sqlite_master initialized_database.




Definition is_create_table (s : stmt) : bool :=
  match s with CREATE_TABLE _ _ _ _ => true | _ => false end.

(** The object a CREATE ... IF NOT EXISTS statement asks for is there, so
    that the statement has nothing to do. *)
Definition present (m : list schema_object) (s : stmt) : bool :=
  match s with
  | CREATE_TABLE ine name _ _ =>
      ine && negb (startswith name "sqlite_") && has_object_in m "table" name
  | CREATE_INDEX ine name tbl _ =>
      ine && bool_decide (is_Some (find_table_in m tbl))
      && negb (startswith name "sqlite_")
      && negb (has_object_in m "table" name) && has_object_in m "index" name
  | CREATE_TRIGGER_AFTER_INSERT ine name tbl _ =>
      ine && bool_decide (is_Some (find_table_in m tbl))
      && negb (startswith name "sqlite_") && has_object_in m "trigger" name
  | _ => false
  end.

Definition if_not_exists_ddl (s : stmt) : bool :=
  match s with
  | CREATE_TABLE ine _ _ _ | CREATE_INDEX ine _ _ _
  | CREATE_TRIGGER_AFTER_INSERT ine _ _ _ => ine
  | _ => false
  end.

(** Every CREATE TABLE comes before every CREATE INDEX and CREATE TRIGGER. *)
Fixpoint tables_first (ss : list stmt) : bool :=
  match ss with
  | [] => true
  | s :: ss' =>
      (is_create_table s || forallb (λ s', negb (is_create_table s')) ss')
      && tables_first ss'
  end.

Definition table_free (os : list schema_object) : bool :=
  forallb (λ o, negb (String.eqb (obj_type o) "table")) os.

End Schema.

(** ** Connections between statements *)

Module Scope.
Import Pathlib Sqlite Sqlite3.

(** The connection after the data definition statements [ss] have run
    outside a transaction and left the database [d']. *)
Definition after_ddl (c : connection) (ss : list stmt) (d' : database)
  : connection :=
  {| database_file := database_file c;
     on_disk := match ss with [] => on_disk c | _ => DbFile d' end;
     working := d';
     in_transaction := false;
     foreign_keys := foreign_keys c;
     closed := closed c;
     calls := calls c ++ map Called_execute ss |}.

(** The connection [sqlite3.connect] returns for a file holding [n]. *)
Definition opened (p : path) (n : node) : connection :=
  {| database_file := p; on_disk := n; working := committed n;
     in_transaction := false; foreign_keys := false; closed := false;
     calls := [] |}.

End Scope.

(** ** Insertions *)

Module Insertion.
Import Sqlite Connection.

(** The value an INSERT supplies for a column: NULL when it names the
    column not at all. *)
Definition supplied (col : string) (assignments : list (string * value)) : value :=
  default VNull (assoc col assignments).

Definition enumerated_roles : list value :=
  [VText "user"; VText "assistant"; VText "system"].

Definition columns_of (s : stmt) : list column :=
  match s with CREATE_TABLE _ _ cols _ => cols | _ => [] end.

Definition foreign_keys_of (s : stmt) : list foreign_key :=
  match s with CREATE_TABLE _ _ _ fks => fks | _ => [] end.

(** What CURRENT_TIMESTAMP leaves in a TIMESTAMP column. *)
Definition timestamp_value (now : string) : value :=
  apply_affinity (type_affinity TIMESTAMP) (VText now).

End Insertion.

(** ** A concrete installation *)

Module Example.
Import Pathlib Sqlite Sqlite3 Connection.

Definition repo : path := ["srv"; "intellichat"].
Definition connection_py : path := repo ++ ["src"; "database"; "connection.py"].
Definition check_data_integrity_py : path :=
  repo ++ ["scripts"; "check_data_integrity.py"].

(** A checkout in which nothing has run yet. *)
Definition checkout : filesystem :=
  {[ [] := Dir; ["srv"] := Dir; repo := Dir ]}.

Definition self : DatabaseManager.t :=
  DatabaseManager.Self (DB_PATH connection_py).

(** [DatabaseManager()] *)
Definition constructed : filesystem :=
  (DatabaseManager.__init__ connection_py None "2026-01-01 09:00:00" checkout).2.

(** One conversation with one message. *)
Definition first_exchange : list action :=
  [ Execute "2026-01-01 09:05:00"
      (INSERT_INTO "conversations"
         [("session_id", VText "s-1"); ("model_name", VText "llama3")]);
    Execute "2026-01-01 09:05:01"
      (INSERT_INTO "messages"
         [("conversation_id", VInt 1); ("role", VText "user");
          ("content", VText "hello")]) ].

Definition populated : filesystem :=
  (DatabaseManager.get_connection self first_exchange constructed).1.2.

Definition database_at (fs : filesystem) (p : path) : database :=
  match fs !! p with
  | Some (DbFile d) => d
  | _ => empty_database
  end.

Definition one_conversation : database :=
  database_at
    (DatabaseManager.get_connection self (take 1 first_exchange) constructed).1.2
    (DB_PATH connection_py).

Definition result_db (r : result error database) : database :=
  match r with
  | Ok d => d
  | Err _ => empty_database
  end.

(** A message dated in the year 2999, inserted in 2026. *)
Definition future_message : stmt :=
  INSERT_INTO "messages"
    [("conversation_id", VInt 1); ("role", VText "user");
     ("content", VText "see you"); ("timestamp", VText "2999-01-01 00:00:00")].

Definition after_future_message : result error database :=
  exec false "2026-01-01 10:00:00" future_message one_conversation.

Definition delete_first_conversation : action :=
  Execute "2026-01-02 08:00:00" (DELETE_FROM_WHERE "conversations" "id" (VInt 1)).

(** [with db.get_connection() as conn:
       conn.execute("DELETE FROM conversations WHERE id = ?", (1,))] *)
Definition after_delete :=
  DatabaseManager.get_connection self [delete_first_conversation] populated.

(** The same with [conn.execute("PRAGMA foreign_keys = ON")] first. *)
Definition after_enforced_delete :=
  DatabaseManager.get_connection self
    [Pragma_foreign_keys true; delete_first_conversation] populated.

Definition second_conversation : stmt :=
  INSERT_INTO "conversations"
    [("session_id", VText "s-2"); ("model_name", VText "llama3")].


(** A block that fails with an ordinary exception after an INSERT. *)
Definition failed :=
  DatabaseManager.get_connection self
    [Execute "2026-01-02 08:00:00" second_conversation;
     Raise (OtherException "ValueError")]
    populated.

(** Three log files, the first of 20MB. *)
Definition with_logs : filesystem :=
  let logs := CheckDataIntegrity.LOGS_DIR check_data_integrity_py in
  <[logs </> "app.log" := File 20971520]>
    (<[logs </> "error.log" := File 2048]>
       (<[logs </> "api.log" := File 512]> constructed)).

(** The checkout once the data directories are there. *)
Definition ensured : filesystem :=
  (DatabaseManager._ensure_directories connection_py self checkout).2.

Definition first_run :=
  DatabaseManager._initialize_database self "2026-01-01 09:00:00" ensured.

(** A connection to the database with one conversation. *)
Definition open_connection : Sqlite3.connection :=
  Scope.opened (DB_PATH connection_py) (DbFile one_conversation).

Definition bot_message : list (string * value) :=
  [("conversation_id", VInt 1); ("role", VText "bot"); ("content", VText "hi")].

Definition reply : list (string * value) :=
  [("conversation_id", VInt 1); ("role", VText "assistant");
   ("content", VText "hello, how can I help?")].

Definition after_reply : result error database :=
  exec false "2026-01-01 09:05:07" (INSERT_INTO "messages" reply) one_conversation.

Definition failing_block : list action :=
  [ Execute "2026-01-02 08:00:00" second_conversation;
    Raise (OtherException "ValueError") ].




(** Sizes for the files the model does not measure. *)
Definition ten_pages (d : database) : Z := 40960.
Definition one_block : Z := 4096.

End Example.

(** ** Directories and reports *)

Module Report.
Import Pathlib.

(** The directories [_ensure_directories] names. *)
Definition default_directories (__file__ : path) : list path :=
  [ Connection.DATA_DIR __file__;
    Connection.CONVERSATIONS_DIR __file__;
    Connection.DATA_DIR __file__ </> "logs" ].

Definition is_warning (l : CheckDataIntegrity.line) : bool :=
  match l with CheckDataIntegrity.print_warning _ => true | _ => false end.

Definition megabytes (n : Z) : Z := (n * (1024 * 1024))%Z.

End Report.

(** ** The query methods of [DatabaseManager] *)

Module Queries.
Import Pathlib Sqlite Sqlite3 Connection.










(** Actions that leave the file alone as long as nothing is committed:
    INSERT and DELETE, pragmas, rollbacks and raised exceptions. *)
Definition quiet (a : action) : bool :=
  match a with
  | Execute _ s => is_dml s
  | Commit => false
  | _ => true
  end.

(** The statements of a batch, each applied at its own time. *)
Fixpoint exec_all (foreign_keys : bool) (l : list (string * stmt)) (d : database)
  : result error database :=
  match l with
  | [] => Ok d
  | (now, s) :: l' => d' ← exec foreign_keys now s d; exec_all foreign_keys l' d'
  end.


End Queries.

(** ** Invariants of the stored data *)

Module Invariants.
Import Sqlite Connection Schema Insertion Queries.








End Invariants.

(** ** What the checks of the script look at *)

Module Checks.
Import Pathlib Sqlite Sqlite3 CheckDataIntegrity.

(** The only table the engine keeps for itself is [sqlite_sequence];
    every other table of the schema has a definition and can be read. *)
Definition internal_tables_reserved (d : database) : Prop :=
  ∀ o, o ∈ sqlite_master d → obj_def o = InternalTable →
       obj_name o = "sqlite_sequence".

(** The file at [p], when there is one, opens as a database. *)
Definition readable (fs : filesystem) (p : path) : bool :=
  match fs !! p with
  | Some n => is_ok (database_of n)
  | None => false
  end.

(** The file at [p] opens as a database that passes the integrity check. *)
Definition sound (fs : filesystem) (p : path) : bool :=
  match fs !! p with
  | Some n =>
      match database_of n with
      | Ok d => String.eqb (pragma_integrity_check d) "ok"
      | Err _ => false
      end
  | None => false
  end.

(** The suggestion [suggest_maintenance] makes for a log file. *)
Definition log_suggestion (log_file : string) : list piece :=
  [Str log_file; Str " is large (>50MB). Consider:"; Str nl;
   Str "  - Archive: python scripts/archive_logs.py"; Str nl;
   Str "  - Rotate logs"].

Definition no_maintenance : line :=
  print_success [Str "No maintenance needed at this time"].

End Checks.

(** ** An installation in use *)

Module Scenario.
Import Pathlib Sqlite Sqlite3 Connection Schema Queries.

(** The statements of [Example.first_exchange], each with its time. *)
Definition history : list (string * stmt) :=
  [ ("2026-01-01 09:05:00",
     INSERT_INTO "conversations"
       [("session_id", VText "s-1"); ("model_name", VText "llama3")]);
    ("2026-01-01 09:05:01",
     INSERT_INTO "messages"
       [("conversation_id", VInt 1); ("role", VText "user");
        ("content", VText "hello")]) ].

(** The database they leave: one conversation with one message. *)
Definition stored : database :=
  Example.result_db (exec_all false history initialized_database).

(** The installation whose database file holds it. *)
Definition in_use : filesystem :=
  <[DatabaseManager.db_path Example.self := DbFile stored]> Example.constructed.











(** The data directories with a database file of zero bytes. *)
Definition empty_database_file : filesystem :=
  <[CheckDataIntegrity.DB_PATH Example.check_data_integrity_py := File 0]>
    Example.ensured.

(** A log of 60MB in the logs directory. *)
Definition sixty_megabyte_log : filesystem :=
  <[CheckDataIntegrity.LOGS_DIR Example.check_data_integrity_py </> "error.log"
    := File 62914560]> Example.constructed.

End Scenario.

(** * Properties *)

Section Engine.
Import Sqlite Connection Schema.

Lemma has_object_in_app m os ty name :
  has_object_in (m ++ os) ty name = has_object_in m ty name || has_object_in os ty name.
Proof. unfold has_object_in. apply existsb_app. Qed.

Lemma find_table_in_app m os name t :
  find_table_in m name = Some t → find_table_in (m ++ os) name = Some t.
Proof.
  induction m as [|o m IH]; simpl; [done|].
  destruct (obj_def o); auto.
  destruct (String.eqb (obj_name o) name); auto.
Qed.

Lemma find_table_Ok d name t :
  find_table d name = Ok t ↔ find_table_in (sqlite_master d) name = Some t.
Proof.
  unfold find_table. destruct (find_table_in _ _); split; congruence.
Qed.

Lemma table_free_has_object os name :
  table_free os = true → has_object_in os "table" name = false.
Proof.
  unfold table_free, has_object_in. induction os as [|o os IH]; simpl; [done|].
  intros [Ho Hos]%andb_prop. rewrite IH by done.
  destruct (String.eqb (obj_type o) "table"); done.
Qed.

(** A data definition statement only ever appends to [sqlite_master]. *)
Lemma ddl_extends fk now s d d' :
  is_dml s = false → exec fk now s d = Ok d' →
  ∃ os, sqlite_master d' = sqlite_master d ++ os
        ∧ (is_create_table s = false → table_free os = true).
Proof.
  destruct s as [ine name cols fks|ine name tbl cols|ine name tbl body| |];
    simpl; try done; intros _.
  - unfold create_table. repeat case_match; intros [= <-]; simpl.
    + exists []. by rewrite app_nil_r.
    + eexists. split; [reflexivity|done].
  - unfold create_index. destruct (find_table d tbl) as [[tcols ?]|]; simpl; [|done].
    repeat case_match; intros [= <-]; simpl.
    + exists []. by rewrite app_nil_r.
    + eexists. split; [reflexivity|done].
  - unfold create_trigger. destruct (find_table d tbl) as [?|]; simpl; [|done].
    repeat case_match; intros [= <-]; simpl.
    + exists []. by rewrite app_nil_r.
    + eexists. split; [reflexivity|done].
Qed.

(** When the object is there already, the statement changes nothing. *)
Lemma present_exec fk now s d :
  present (sqlite_master d) s = true → exec fk now s d = Ok d.
Proof.
  destruct s as [ine name cols fks|ine name tbl cols|ine name tbl body| |];
    simpl; try done.
  - intros [[-> Hres%negb_true_iff]%andb_prop Hhas]%andb_prop.
    unfold create_table, has_object. by rewrite Hres, Hhas.
  - intros [[[[-> Ht%bool_decide_eq_true]%andb_prop Hres%negb_true_iff]%andb_prop
              Hnt%negb_true_iff]%andb_prop Hidx]%andb_prop.
    unfold create_index, find_table, has_object. destruct Ht as [[tcols ?] ->]; simpl.
    by rewrite Hres, Hnt, Hidx.
  - intros [[[-> Ht%bool_decide_eq_true]%andb_prop Hres%negb_true_iff]%andb_prop
             Htrg]%andb_prop.
    unfold create_trigger, find_table, has_object. destruct Ht as [? ->]; simpl.
    by rewrite Hres, Htrg.
Qed.

Lemma has_object_in_here m name def ty os :
  obj_type (SchemaObject name name def) = ty →
  has_object_in (m ++ SchemaObject name name def :: os) ty name = true.
Proof.
  intros <-. rewrite has_object_in_app. apply orb_true_iff; right.
  unfold has_object_in; simpl. by rewrite !String.eqb_refl.
Qed.

(** After the statement has run, the object is there. *)
Lemma exec_present fk now s d d' :
  if_not_exists_ddl s = true → exec fk now s d = Ok d' →
  present (sqlite_master d') s = true.
Proof.
  destruct s as [ine name cols fks|ine name tbl cols|ine name tbl body| |];
    simpl; try done; intros ->.
  - unfold create_table, has_object.
    destruct (startswith name "sqlite_") eqn:Hres; [done|].
    destruct (has_object_in (sqlite_master d) "table" name) eqn:Hhas.
    + intros [= <-]. by rewrite Hhas.
    + destruct (has_object_in (sqlite_master d) "index" name); [done|].
      intros [= <-]; simpl. by rewrite has_object_in_here.
  - unfold create_index, find_table, has_object.
    destruct (find_table_in (sqlite_master d) tbl) as [[tcols tfks]|] eqn:Ht; simpl; [|done].
    destruct (startswith name "sqlite_") eqn:Hres; [done|].
    destruct (has_object_in (sqlite_master d) "table" name) eqn:Hnt; [done|].
    destruct (has_object_in (sqlite_master d) "index" name) eqn:Hidx.
    + intros [= <-]. by rewrite Ht, Hnt, Hidx.
    + case_match; [|done]. intros [= <-]; simpl.
      rewrite (find_table_in_app _ _ _ _ Ht), !has_object_in_app, Hnt, Hidx; simpl.
      unfold has_object_in; simpl. by rewrite String.eqb_refl.
  - unfold create_trigger, find_table, has_object.
    destruct (find_table_in (sqlite_master d) tbl) as [[tcols tfks]|] eqn:Ht; simpl; [|done].
    destruct (startswith name "sqlite_") eqn:Hres; [done|].
    destruct (has_object_in (sqlite_master d) "trigger" name) eqn:Htrg.
    + intros [= <-]. by rewrite Ht, Htrg.
    + intros [= <-]; simpl.
      rewrite (find_table_in_app _ _ _ _ Ht), has_object_in_app; simpl.
      rewrite Htrg; simpl. unfold has_object_in; simpl. by rewrite String.eqb_refl.
Qed.

(** Objects that are there stay there when the schema grows, as long as
    no table takes the name of an index. *)
Lemma present_app m os s :
  (is_create_table s = false → table_free os = true) →
  present m s = true → present (m ++ os) s = true.
Proof.
  destruct s as [ine name cols fks|ine name tbl cols|ine name tbl body| |];
    simpl; try done; intros Hfree.
  - intros [[-> ->]%andb_prop Hhas]%andb_prop.
    by rewrite has_object_in_app, Hhas.
  - intros [[[[-> Ht%bool_decide_eq_true]%andb_prop ->]%andb_prop
              Hnt%negb_true_iff]%andb_prop Hidx]%andb_prop.
    destruct Ht as [t Ht].
    rewrite (find_table_in_app _ _ _ _ Ht), !has_object_in_app, Hnt, Hidx.
    by rewrite table_free_has_object by auto.
  - intros [[[-> Ht%bool_decide_eq_true]%andb_prop ->]%andb_prop Htrg]%andb_prop.
    destruct Ht as [t Ht].
    by rewrite (find_table_in_app _ _ _ _ Ht), has_object_in_app, Htrg.
Qed.

Lemma table_free_app os1 os2 :
  table_free os1 = true → table_free os2 = true → table_free (os1 ++ os2) = true.
Proof. unfold table_free. rewrite forallb_app. by intros -> ->. Qed.

Lemma foldM_ddl_extends fk now ss : ∀ d d',
  forallb if_not_exists_ddl ss = true →
  foldM (exec fk now) ss d = Ok d' →
  ∃ os, sqlite_master d' = sqlite_master d ++ os
        ∧ (forallb (λ s, negb (is_create_table s)) ss = true → table_free os = true).
Proof.
  induction ss as [|s ss IH]; simpl; intros d d'.
  - intros _ [= <-]. exists []. by rewrite app_nil_r.
  - intros [Hs Hss]%andb_prop. destruct (exec fk now s d) as [d1|] eqn:H1; simpl; [|done].
    intros H2. destruct (IH _ _ Hss H2) as (os2 & E2 & F2).
    destruct (ddl_extends fk now s d d1) as (os1 & E1 & F1); [by destruct s|done|].
    exists (os1 ++ os2). split; [by rewrite E2, E1, app_assoc|].
    intros [Hn%negb_true_iff ?]%andb_prop. apply table_free_app; auto.
Qed.

(** A script of CREATE ... IF NOT EXISTS statements, tables first, leaves
    a database in which each of its statements finds its object. *)
Lemma foldM_all_present fk now ss : ∀ d d',
  forallb if_not_exists_ddl ss = true → tables_first ss = true →
  foldM (exec fk now) ss d = Ok d' →
  forallb (present (sqlite_master d')) ss = true.
Proof.
  induction ss as [|s ss IH]; simpl; intros d d'; [done|].
  intros [Hs Hss]%andb_prop [Hord Hfirst]%andb_prop.
  destruct (exec fk now s d) as [d1|] eqn:H1; simpl; [|done]. intros H2.
  rewrite (IH _ _ Hss Hfirst H2), andb_true_r.
  destruct (foldM_ddl_extends _ _ _ _ _ Hss H2) as (os & -> & Hfree).
  apply present_app; [|by eapply exec_present].
  intros Hnot. apply Hfree. rewrite Hnot in Hord. done.
Qed.

(** ... and run against such a database, the script changes nothing. *)
Lemma foldM_present_id fk now ss : ∀ d,
  forallb (present (sqlite_master d)) ss = true →
  foldM (exec fk now) ss d = Ok d.
Proof.
  induction ss as [|s ss IH]; simpl; intros d; [done|].
  intros [Hs Hss]%andb_prop. rewrite (present_exec _ _ _ _ Hs); simpl. auto.
Qed.
End Engine.

Section Connections.
Import Pathlib Sqlite Sqlite3 Connection Schema Scope.

Lemma database_of_committed n d : database_of n = Ok d → committed n = d.
Proof. unfold committed. by intros ->. Qed.

(** Data definition statements outside a transaction reach the file one
    by one; the block stops at the first that fails. *)
Lemma run_block_ddl now rest ss : ∀ c,
  in_transaction c = false →
  database_of (on_disk c) = Ok (working c) →
  forallb (λ s, negb (is_dml s)) ss = true →
  match foldM (exec (foreign_keys c) now) ss (working c) with
  | Ok d' => run_block (map (Execute now) ss ++ rest) c
             = run_block rest (after_ddl c ss d')
  | Err e => (run_block (map (Execute now) ss ++ rest) c).1 = Err (sqlite3_Error e)
  end.
Proof.
  induction ss as [|s ss IH]; intros c Htx Hdisk Hddl; simpl.
  - destruct c; simpl in *; subst. unfold after_ddl; simpl. by rewrite app_nil_r.
  - apply andb_prop in Hddl as [Hs%negb_true_iff Hss].
    unfold execute; simpl. rewrite Hdisk, Htx, Hs; simpl.
    destruct (exec (foreign_keys c) now s (working c)) as [d1|e] eqn:H1; simpl; [|done].
    set (c1 := Connection _ _ _ _ _ _ _).
    specialize (IH c1 eq_refl eq_refl Hss). simpl in IH.
    destruct (foldM (exec (foreign_keys c) now) ss d1) as [d'|e] eqn:H2; [|done].
    rewrite IH. f_equal. unfold after_ddl; simpl.
    rewrite <- app_assoc; simpl.
    destruct ss; simpl in *; [by injection H2 as <-|done].
Qed.

Lemma connect_opened p fs c fs0 :
  connect p fs = (Ok c, fs0) →
  ∃ n, c = opened p n
       ∧ ((fs !! p = Some n ∧ n ≠ Dir ∧ fs0 = fs)
          ∨ (fs !! p = None ∧ fs !! parent p = Some Dir
             ∧ n = File 0 ∧ fs0 = <[p := File 0]> fs)).
Proof.
  unfold connect. destruct (fs !! p) as [n|] eqn:Hp.
  - destruct n; [done| |]; intros [= <- <-]; eexists; (split; [reflexivity|left; done]).
  - destruct (fs !! parent p) as [[| |]|]; try done.
    intros [= <- <-]. eexists; split; [reflexivity|right; done].
Qed.

(** The block of [_initialize_database] on a newly opened connection. *)
Lemma run_schema_block p n now :
  let block := map (Execute now) schema_statements ++ [Commit] in
  match database_of n ≫= foldM (exec false now) schema_statements with
  | Ok d1 =>
      run_block block (opened p n)
      = (Ok tt, commit (after_ddl (opened p n) schema_statements d1))
  | Err e => (run_block block (opened p n)).1 = Err (sqlite3_Error e)
  end.
Proof.
  cbv zeta. destruct (database_of n) as [d0|e] eqn:Hn; cbn [mbind result_bind].
  - pose proof (run_block_ddl now [Commit] schema_statements (opened p n) eq_refl) as H.
    change (working (opened p n)) with (committed n) in H.
    change (foreign_keys (opened p n)) with false in H.
    change (on_disk (opened p n)) with n in H.
    rewrite (database_of_committed _ _ Hn) in H.
    specialize (H Hn eq_refl).
    destruct (foldM (exec false now) schema_statements d0); [|done].
    by rewrite H.
  - change (map (Execute now) schema_statements)
      with (Execute now create_conversations :: map (Execute now) (tail schema_statements)).
    simpl. unfold execute; simpl. by rewrite Hn.
Qed.

(** [_initialize_database] succeeds exactly when the file can be opened
    as a database on which the schema statements run, and then leaves
    their outcome in the file. *)
Lemma initialize_database_Ok self now fs fs1 oc :
  DatabaseManager._initialize_database self now fs = (Ok tt, fs1, oc) ↔
  ∃ n fs0 d1,
    connect (DatabaseManager.db_path self) fs
    = (Ok (opened (DatabaseManager.db_path self) n), fs0)
    ∧ database_of n ≫= foldM (exec false now) schema_statements = Ok d1
    ∧ fs1 = <[DatabaseManager.db_path self := DbFile d1]> fs0
    ∧ oc = Some (close (commit (commit
                  (after_ddl (opened (DatabaseManager.db_path self) n)
                             schema_statements d1)))).
Proof.
  unfold DatabaseManager._initialize_database, DatabaseManager.get_connection.
  set (p := DatabaseManager.db_path self). split.
  - destruct (connect p fs) as [[c0|e] fs0] eqn:Hc; [|done].
    destruct (connect_opened _ _ _ _ Hc) as (n & -> & _).
    pose proof (run_schema_block p n now) as H. cbv zeta in H.
    destruct (database_of n ≫= foldM (exec false now) schema_statements) as [d1|e] eqn:Hrun.
    + rewrite H. intros [= <- <-]. exists n, fs0, d1. repeat split; assumption.
    + destruct (run_block _ _) as [[[]|e'] c']; simpl in H; [done|].
      by destruct (isinstance_Exception e').
  - intros (n & fs0 & d1 & -> & Hrun & -> & ->).
    pose proof (run_schema_block p n now) as H. cbv zeta in H.
    rewrite Hrun in H. rewrite H. reflexivity.
Qed.
End Connections.

Section Initialization.
Import Pathlib Sqlite Sqlite3 Connection Schema Scope.

Lemma schema_statements_shape :
  forallb if_not_exists_ddl schema_statements = true
  ∧ tables_first schema_statements = true.
Proof. by vm_compute. Qed.

Lemma schema_on_empty now :
  foldM (exec false now) schema_statements empty_database = Ok initialized_database.
Proof. vm_compute. reflexivity. Qed.


(** C6. Schema initialization is idempotent: once [_initialize_database]
    has succeeded, the file holds a database, and running it again at any
    later time, on any file system in which that file holds a database
    with the same schema objects (whatever its rows), succeeds and leaves
    the whole file system, hence tables, indexes, triggers and rows, as
    it was. *)
Theorem initialize_database_idempotent self now fs fs1 oc :
  DatabaseManager._initialize_database self now fs = (Ok tt, fs1, oc) →
  ∃ d1, fs1 !! DatabaseManager.db_path self = Some (DbFile d1)
        ∧ ∀ now' fs2 d2,
            fs2 !! DatabaseManager.db_path self = Some (DbFile d2) →
            sqlite_master d2 = sqlite_master d1 →
            ∃ oc', DatabaseManager._initialize_database self now' fs2
                   = (Ok tt, fs2, oc').
Proof.
  intros (n & fs0 & d1 & Hc & Hrun & -> & _)%initialize_database_Ok.
  exists d1. split; [apply lookup_insert_eq|].
  intros now' fs2 d2 Hfs2 Hm.
  destruct (database_of n) as [d0|] eqn:Hn; [|done]. cbn [mbind result_bind] in Hrun.
  destruct schema_statements_shape as [Hine Hord].
  pose proof (foldM_all_present _ _ _ _ _ Hine Hord Hrun) as Hpresent.
  rewrite <- Hm in Hpresent.
  eexists. apply initialize_database_Ok.
  exists (DbFile d2), fs2, d2. split; [|split; [|split; [|reflexivity]]].
  - unfold connect. by rewrite Hfs2.
  - cbn [database_of mbind result_bind]. by apply foldM_present_id.
  - symmetry. by apply insert_id.
Qed.

End Initialization.

Section Rows.
Import Pathlib Sqlite Sqlite3 Connection Schema Scope Insertion.

Lemma field_insert (r : row) k v name :
  field (<[k := v]> r) name = if decide (k = name) then v else field r name.
Proof.
  unfold field. case_decide as Hk.
  - subst. by rewrite lookup_insert_eq.
  - by rewrite lookup_insert_ne.
Qed.


(** A new row holds, in each column, the stored form of what was supplied. *)
Lemma field_build_row now cols assignments name c :
  find_column cols name = Some c →
  field (build_row now cols assignments) name = stored_value now assignments c.
Proof.
  unfold build_row, find_column. induction cols as [|c' cols IH]; simpl; [done|].
  rewrite field_insert. destruct (String.eqb (col_name c') name) eqn:E.
  - intros [= <-]. apply String.eqb_eq in E. by rewrite decide_True.
  - apply String.eqb_neq in E. rewrite decide_False by done. apply IH.
Qed.

Lemma integer_to_text_not_role n :
  existsb (λ a, bool_decide (VText (integer_to_text n) = VText a))
          ["user"; "assistant"; "system"] = false.
Proof.
  unfold integer_to_text. destruct (Z.to_int n) as [u|u]; destruct u; reflexivity.
Qed.

Lemma initialized_find_messages d :
  initialized d →
  find_table d "messages"
  = Ok (columns_of create_messages, foreign_keys_of create_messages).
Proof. unfold initialized, find_table. intros ->. reflexivity. Qed.

Lemma initialized_find_conversations d :
  initialized d →
  find_table d "conversations" = Ok (columns_of create_conversations, []).
Proof. unfold initialized, find_table. intros ->. reflexivity. Qed.

Lemma initialized_triggers d :
  initialized d →
  triggers_on d "messages"
  = [[UPDATE_SET_WHERE "conversations" "updated_at" CURRENT_TIMESTAMP
        "id" (NEW "conversation_id")]].
Proof. unfold initialized, triggers_on. intros ->. reflexivity. Qed.

Lemma assign_rowid_field tbl cols d r0 r c name :
  find is_pk cols = Some c → name ≠ col_name c →
  assign_rowid tbl cols d r0 = Ok r → field r name = field r0 name.
Proof.
  unfold assign_rowid. intros -> Hne.
  destruct (field r0 (col_name c)); try done.
  - case_match; [|done]. intros [= <-]. rewrite field_insert. by rewrite decide_False.
  - by intros [= <-].
Qed.

Lemma rows_of_store_row tbl cols r d :
  rows_of (store_row tbl cols r d) tbl = rows_of d tbl ++ [r].
Proof. unfold rows_of, store_row; simpl. by rewrite lookup_insert_eq. Qed.

Lemma rows_of_store_row_ne tbl cols r d tbl' :
  tbl ≠ tbl' → rows_of (store_row tbl cols r d) tbl' = rows_of d tbl'.
Proof. intros. unfold rows_of, store_row; simpl. by rewrite lookup_insert_ne. Qed.

Lemma rows_of_set_rows tbl rs d : rows_of (set_rows tbl rs d) tbl = rs.
Proof. unfold rows_of, set_rows; simpl. by rewrite lookup_insert_eq. Qed.

Lemma rows_of_set_rows_ne tbl rs d tbl' :
  tbl ≠ tbl' → rows_of (set_rows tbl rs d) tbl' = rows_of d tbl'.
Proof. intros. unfold rows_of, set_rows; simpl. by rewrite lookup_insert_ne. Qed.

(** The trigger of the schema: every conversation with the id of the new
    message gets the current timestamp; nothing can make it fail. *)
Lemma fire_update_conversation_timestamp now new d :
  sqlite_master d = sqlite_master initialized_database →
  fire_triggers now new (triggers_on d "messages") d
  = Ok (set_rows "conversations"
          (map (λ c, if holds "id" (apply_affinity AffInteger (field new "conversation_id")) c
                     then <["updated_at" := timestamp_value now]> c else c)
               (rows_of d "conversations")) d).
Proof.
  intros Hm. rewrite (initialized_triggers d Hm). simpl.
  rewrite (initialized_find_conversations d Hm). reflexivity.
Qed.

(** What a successful INSERT INTO messages does to an initialized
    database. *)
Lemma insert_message_Ok fk now d assignments d' :
  initialized d →
  insert_into fk now "messages" assignments d = Ok d' →
  ∃ m,
    assign_rowid "messages" (columns_of create_messages) d
      (build_row now (columns_of create_messages) assignments) = Ok m
    ∧ violations fk "messages" (columns_of create_messages)
        (foreign_keys_of create_messages) d m = []
    ∧ d' = set_rows "conversations"
             (map (λ c, if holds "id" (apply_affinity AffInteger
                                         (field m "conversation_id")) c
                        then <["updated_at" := timestamp_value now]> c else c)
                  (rows_of d "conversations"))
             (store_row "messages" (columns_of create_messages) m d).
Proof.
  intros Hd. unfold insert_into. rewrite (initialized_find_messages d Hd).
  cbn [mbind result_bind]. case_match; [|done].
  destruct (assign_rowid _ _ _ _) as [m|] eqn:Hm; [|done]. cbn [mbind result_bind].
  destruct (violations _ _ _ _ _ _) eqn:Hv; [|done].
  change (triggers_on d "messages")
    with (triggers_on (store_row "messages" (columns_of create_messages) m d) "messages").
  rewrite fire_update_conversation_timestamp by done.
  rewrite rows_of_store_row_ne by done. intros [= <-]. by exists m.
Qed.
End Rows.

Section Messages.
Import Pathlib Sqlite Sqlite3 Connection Schema Scope Insertion.

Lemma apply_affinity_integer_idem v :
  apply_affinity AffInteger (apply_affinity AffInteger v) = apply_affinity AffInteger v.
Proof.
  destruct v; simpl; try done.
  destruct (text_to_integer s) eqn:E; simpl; [done|by rewrite E].
Qed.

Lemma value_leb_refl v : value_leb v v = true.
Proof.
  destruct v; simpl; [done|apply Z.leb_refl| |];
    by destruct (String.leb_total s s) || destruct (String.leb_total b b).
Qed.

Lemma timestamp_value_ge now :
  sql_ge (timestamp_value now) (timestamp_value now) = Some true.
Proof.
  pose proof (value_leb_refl (timestamp_value now)) as H.
  unfold timestamp_value in *; simpl in *.
  destruct (text_to_integer now); simpl in *; by rewrite H.
Qed.

Lemma message_rowid_field d r0 m name :
  name ≠ "id" →
  assign_rowid "messages" (columns_of create_messages) d r0 = Ok m →
  field m name = field r0 name.
Proof.
  intros Hne Hm.
  exact (assign_rowid_field "messages" (columns_of create_messages) d r0 m
           (Column "id" INTEGER [PRIMARY_KEY_AUTOINCREMENT]) name eq_refl Hne Hm).
Qed.

Example one_conversation_rows :
  initialized Example.one_conversation
  ∧ map (λ c, (field c "id", field c "updated_at"))
        (rows_of Example.one_conversation "conversations")
    = [(VInt 1, VText "2026-01-01 09:05:00")].
Proof. split; vm_compute; reflexivity. Qed.

(** C5, as stated, fails: a message inserted at 10:00 on 2026-01-01 with
    an explicit timestamp in the year 2999 leaves its conversation with
    an [updated_at] of 10:00 on 2026-01-01, which is not greater than or
    equal to the message's timestamp. *)
Lemma future_timestamp_counterexample :
  let d' := Example.result_db Example.after_future_message in
  is_ok Example.after_future_message = true
  ∧ map (λ m, (field m "conversation_id", field m "timestamp"))
        (rows_of d' "messages")
    = [(VInt 1, VText "2999-01-01 00:00:00")]
  ∧ map (λ c, (field c "id", field c "updated_at")) (rows_of d' "conversations")
    = [(VInt 1, VText "2026-01-01 10:00:00")]
  ∧ sql_ge (VText "2026-01-01 10:00:00") (VText "2999-01-01 00:00:00") = Some false.
Proof. repeat split; vm_compute; reflexivity. Qed.

(** C5, amended. Inserting a message into an initialized database stores
    one new message row and sets [updated_at] of every conversation whose
    id is the message's [conversation_id] to the statement's
    CURRENT_TIMESTAMP.  When the INSERT leaves [timestamp] to its default,
    that is also the message's timestamp, so [updated_at >= timestamp]
    holds; when the INSERT supplies a timestamp, the comparison is the one
    between the statement's CURRENT_TIMESTAMP and the supplied value. *)
Theorem insert_message_updates_conversation fk now d assignments d' :
  initialized d →
  exec fk now (INSERT_INTO "messages" assignments) d = Ok d' →
  ∃ m,
    rows_of d' "messages" = rows_of d "messages" ++ [m]
    ∧ ∀ c, c ∈ rows_of d' "conversations" →
           holds "id" (field m "conversation_id") c = true →
           field c "updated_at" = timestamp_value now
           ∧ sql_ge (field c "updated_at") (field m "timestamp")
             = sql_ge (timestamp_value now) (field m "timestamp")
           ∧ (assoc "timestamp" assignments = None →
              field m "timestamp" = timestamp_value now
              ∧ sql_ge (field c "updated_at") (field m "timestamp") = Some true).
Proof.
  intros Hd Hexec. simpl in Hexec.
  destruct (insert_message_Ok _ _ _ _ _ Hd Hexec) as (m & Hm & _ & ->).
  exists m. split.
  { rewrite rows_of_set_rows_ne by done. apply rows_of_store_row. }
  intros c Hc Hid. rewrite rows_of_set_rows in Hc.
  apply list_elem_of_fmap in Hc as (c0 & -> & Hc0).
  assert (field m "conversation_id"
          = stored_value now assignments (Column "conversation_id" INTEGER [NOT_NULL]))
    as Hconv.
  { rewrite (message_rowid_field _ _ _ "conversation_id" ltac:(done) Hm).
    by apply field_build_row. }
  assert (apply_affinity AffInteger (field m "conversation_id")
          = field m "conversation_id") as Hkey.
  { rewrite Hconv. apply apply_affinity_integer_idem. }
  rewrite Hkey in Hid |- *.
  assert (field (if holds "id" (field m "conversation_id") c0
                 then <["updated_at" := timestamp_value now]> c0 else c0) "updated_at"
          = timestamp_value now) as Hup.
  { destruct (holds "id" (field m "conversation_id") c0) eqn:Hh.
    - by rewrite field_insert, decide_True.
    - by rewrite Hh in Hid. }
  rewrite Hup. split; [done|]. split; [done|].
  intros Hdefault.
  assert (field m "timestamp" = timestamp_value now) as ->.
  { rewrite (message_rowid_field _ _ _ "timestamp" ltac:(done) Hm).
    rewrite (field_build_row now (columns_of create_messages) assignments "timestamp"
               (Column "timestamp" TIMESTAMP [DEFAULT CURRENT_TIMESTAMP]) eq_refl).
    unfold stored_value, initial_value; simpl. by rewrite Hdefault. }
  split; [done|apply timestamp_value_ge].
Qed.
End Messages.

Section Roles.
Import Pathlib Sqlite Sqlite3 Connection Schema Scope Insertion.

Lemma stored_role now assignments :
  stored_value now assignments
    (Column "role" TEXT [NOT_NULL; CHECK (IN "role" ["user"; "assistant"; "system"])])
  = apply_affinity AffText (supplied "role" assignments).
Proof.
  unfold stored_value, initial_value, supplied; simpl.
  by destruct (assoc "role" assignments).
Qed.

Lemma message_role d now assignments m :
  assign_rowid "messages" (columns_of create_messages) d
    (build_row now (columns_of create_messages) assignments) = Ok m →
  field m "role" = apply_affinity AffText (supplied "role" assignments).
Proof.
  intros Hm. rewrite (message_rowid_field _ _ _ "role" ltac:(done) Hm).
  rewrite <- (stored_role now). by apply field_build_row.
Qed.

Lemma enumerated_role_cases v :
  v ∈ enumerated_roles ↔ v = VText "user" ∨ v = VText "assistant" ∨ v = VText "system".
Proof.
  unfold enumerated_roles. rewrite !elem_of_cons.
  split; [intros [?|[?|[?|H]]]; auto; by apply not_elem_of_nil in H|tauto].
Qed.

(** A role outside the enumeration breaks NOT NULL (when NULL) or the
    CHECK constraint (otherwise). *)
Lemma bad_role_violation fk d m v :
  field m "role" = apply_affinity AffText v →
  v ∉ enumerated_roles →
  violations fk "messages" (columns_of create_messages)
    (foreign_keys_of create_messages) d m ≠ [].
Proof.
  intros Hrole Hv Hnil. unfold violations in Hnil.
  apply app_eq_nil in Hnil as [Hnn Hrest]. apply app_eq_nil in Hrest as [Hchk _].
  assert (NotNull "messages" "role" ∈ not_null_violations "messages"
            (columns_of create_messages) m
          ∨ Check "messages" "role" ∈ check_violations "messages"
              (columns_of create_messages) m) as [H|H].
  { destruct v as [|n|s|b].
    - left. apply list_elem_of_omap. eexists. split; [do 2 right; left|].
      simpl. by rewrite Hrole.
    - right. apply list_elem_of_omap. eexists. split; [do 2 right; left|].
      simpl. rewrite Hrole. simpl.
      pose proof (integer_to_text_not_role n) as Hn. simpl in Hn. by rewrite Hn.
    - right. apply list_elem_of_omap. eexists. split; [do 2 right; left|].
      simpl. rewrite Hrole. simpl.
      rewrite !bool_decide_eq_false_2; [done|..];
        intros [= ->]; apply Hv, enumerated_role_cases; auto.
    - right. apply list_elem_of_omap. eexists. split; [do 2 right; left|].
      simpl. by rewrite Hrole. }
  - rewrite Hnn in H. by apply not_elem_of_nil in H.
  - rewrite Hchk in H. by apply not_elem_of_nil in H.
Qed.

Lemma insert_bad_role fk now d assignments :
  initialized d →
  supplied "role" assignments ∉ enumerated_roles →
  ∃ e, insert_into fk now "messages" assignments d = Err e.
Proof.
  intros Hd Hv. unfold insert_into. rewrite (initialized_find_messages d Hd).
  cbn [mbind result_bind]. case_match; [|by eexists].
  destruct (assign_rowid _ _ _ _) as [m|] eqn:Hm; [|by eexists]. cbn [mbind result_bind].
  pose proof (bad_role_violation fk d m _ (message_role _ _ _ _ Hm) Hv) as Hne.
  destruct (violations _ _ _ _ _ _); [done|by eexists].
Qed.

(** With an enumerated role, no violation is about the role. *)
Lemma good_role_violations fk d m v k :
  field m "role" = apply_affinity AffText v →
  v ∈ enumerated_roles →
  k ∈ violations fk "messages" (columns_of create_messages)
        (foreign_keys_of create_messages) d m →
  k ≠ Check "messages" "role" ∧ k ≠ NotNull "messages" "role".
Proof.
  intros Hrole Hv. unfold violations. rewrite !elem_of_app.
  assert (field m "role" = v) as Hm.
  { rewrite Hrole. apply enumerated_role_cases in Hv as [->|[->| ->]]; reflexivity. }
  assert (field m "role" ≠ VNull) as Hnn.
  { rewrite Hm. apply enumerated_role_cases in Hv as [->|[->| ->]]; done. }
  intros [H|[H|[H|H]]].
  - apply list_elem_of_omap in H as (c & Hc & Hk).
    repeat (apply elem_of_cons in Hc as [->|Hc]); try (by apply not_elem_of_nil in Hc);
      simpl in Hk; try done; case_bool_decide; try done;
      injection Hk as <-; try done.
  - apply list_elem_of_omap in H as (c & Hc & Hk).
    repeat (apply elem_of_cons in Hc as [->|Hc]); try (by apply not_elem_of_nil in Hc);
      simpl in Hk; try done.
    rewrite Hm in Hk. by apply enumerated_role_cases in Hv as [->|[->| ->]].
  - apply list_elem_of_omap in H as (c & Hc & Hk).
    repeat (apply elem_of_cons in Hc as [->|Hc]); try (by apply not_elem_of_nil in Hc);
      simpl in Hk; try done; case_match; try done; injection Hk as <-; done.
  - destruct fk; [|by apply not_elem_of_nil in H].
    apply list_elem_of_omap in H as (c & Hc & Hk).
    repeat case_match; try done; injection Hk as <-; done.
Qed.

Lemma insert_good_role fk now d assignments k :
  initialized d →
  supplied "role" assignments ∈ enumerated_roles →
  insert_into fk now "messages" assignments d = Err (IntegrityError k) →
  k ≠ Check "messages" "role" ∧ k ≠ NotNull "messages" "role".
Proof.
  intros Hd Hv. unfold insert_into. rewrite (initialized_find_messages d Hd).
  cbn [mbind result_bind]. case_match; [|done].
  destruct (assign_rowid _ _ _ _) as [m|e] eqn:Hm; cbn [mbind result_bind].
  - destruct (violations _ _ _ _ _ _) as [|k' ks] eqn:Hviol.
    + change (triggers_on d "messages")
        with (triggers_on (store_row "messages" (columns_of create_messages) m d)
                          "messages").
      by rewrite fire_update_conversation_timestamp.
    + intros [= <-]. eapply (good_role_violations fk d m); [by eapply message_role|done|].
      rewrite Hviol. left.
  - intros [= ->]. unfold assign_rowid in Hm. simpl in Hm.
    repeat case_match; try done; by injection Hm as <-.
Qed.
End Roles.

Section Scopes.
Import Pathlib Sqlite Sqlite3 Connection Schema Scope Insertion.

(** C3. On a connection to an initialized database, an INSERT INTO
    messages whose role is not 'user', 'assistant' or 'system' (NULL and
    a missing role included) raises an error and leaves both the
    connection's view of the database and the file as they were; with one
    of the three roles, no integrity error that the INSERT may still run
    into is the CHECK or the NOT NULL constraint of the role column. *)
Theorem role_constraint now assignments c :
  initialized (working c) →
  (supplied "role" assignments ∉ enumerated_roles →
   ∃ e c', execute now (INSERT_INTO "messages" assignments) c = (Err e, c')
           ∧ working c' = working c ∧ on_disk c' = on_disk c)
  ∧ (supplied "role" assignments ∈ enumerated_roles →
     ∀ k c', execute now (INSERT_INTO "messages" assignments) c
             = (Err (sqlite3_Error (IntegrityError k)), c') →
             k ≠ Check "messages" "role" ∧ k ≠ NotNull "messages" "role").
Proof.
  intros Hd. unfold execute. cbn [on_disk working foreign_keys called exec].
  destruct (database_of (on_disk c)) as [d0|e0] eqn:Hdisk; split.
  - intros Hv. destruct (insert_bad_role (foreign_keys c) now _ assignments Hd Hv) as [e ->].
    eauto.
  - intros Hv k c'.
    destruct (insert_into _ _ _ _ _) as [d'|e] eqn:Hins; [done|].
    intros [= -> _]. by eapply insert_good_role.
  - eauto.
  - intros _ k c' [= -> _]. unfold database_of in Hdisk. by repeat case_match.
Qed.

Example accepted_message :
  is_ok (exec false "2026-01-01 09:05:01"
           (INSERT_INTO "messages"
              [("conversation_id", VInt 1); ("role", VText "assistant");
               ("content", VText "hi")])
           Example.one_conversation) = true.
Proof. vm_compute. reflexivity. Qed.

(** Without foreign key enforcement, deleting conversations touches no
    other table. *)
Lemma delete_without_foreign_keys tbl col v d d' other :
  delete_from_where false tbl col v d = Ok d' → other ≠ tbl →
  rows_of d' other = rows_of d other.
Proof.
  unfold delete_from_where. destruct (find_table d tbl) as [[cols fks]|]; [|done].
  cbn [mbind result_bind]. destruct (find_column cols col); [|done].
  simpl. intros [= <-] Hne. by rewrite rows_of_set_rows_ne.
Qed.

Lemma connection_without_foreign_keys p fs c fs0 :
  connect p fs = (Ok c, fs0) → foreign_keys c = false.
Proof. by intros (n & -> & _)%connect_opened. Qed.

(** C1, the failing input. The conversation with id 1 has one message.
    Deleting the conversation in a [get_connection] scope succeeds and is
    committed, the conversation is gone, and the message that refers to
    it is still there: the connection never switches foreign key
    enforcement on, so ON DELETE CASCADE does not act. *)
Theorem delete_conversation_keeps_messages :
  let p := DB_PATH Example.connection_py in
  let before := Example.database_at Example.populated p in
  let after := Example.database_at Example.after_delete.1.2 p in
  map (λ c, field c "id") (rows_of before "conversations") = [VInt 1]
  ∧ map (λ m, field m "conversation_id") (rows_of before "messages") = [VInt 1]
  ∧ Example.after_delete.1.1 = Ok tt
  ∧ foreign_keys <$> Example.after_delete.2 = Some false
  ∧ rows_of after "conversations" = []
  ∧ map (λ m, field m "conversation_id") (rows_of after "messages") = [VInt 1].
Proof. repeat split; vm_compute; reflexivity. Qed.

(** The same deletion on a connection that first runs
    [PRAGMA foreign_keys = ON] removes the message too. *)
Example delete_cascades_when_enforced :
  let after := Example.database_at Example.after_enforced_delete.1.2
                 (DB_PATH Example.connection_py) in
  Example.after_enforced_delete.1.1 = Ok tt
  ∧ rows_of after "conversations" = []
  ∧ rows_of after "messages" = [].
Proof. repeat split; vm_compute; reflexivity. Qed.


End Scopes.

Section Directories.
Import Pathlib Sqlite Sqlite3 Connection Schema Scope Report.

Lemma mkdir_exist_ok_lookup p fs r fs' q :
  mkdir_exist_ok p fs = (r, fs') →
  fs' !! q = fs !! q ∨ (q = p ∧ fs !! q = None ∧ fs' !! q = Some Dir).
Proof.
  unfold mkdir_exist_ok. destruct (fs !! p) as [[| |]|] eqn:Hp.
  1-3: intros [= <- <-]; by left.
  destruct (fs !! parent p) as [[| |]|]; intros [= <- <-]; try by left.
  destruct (decide (q = p)) as [->|Hne].
  - right. by rewrite lookup_insert_eq.
  - left. by rewrite lookup_insert_ne.
Qed.

Lemma mkdir_exist_ok_Ok p fs fs' :
  mkdir_exist_ok p fs = (Ok tt, fs') → fs' !! p = Some Dir.
Proof.
  unfold mkdir_exist_ok. destruct (fs !! p) as [[| |]|] eqn:Hp; try done.
  - by intros [= <-].
  - destruct (fs !! parent p) as [[| |]|]; try done.
    intros [= <-]. apply lookup_insert_eq.
Qed.


(** Whatever becomes a directory is one of the three defaults. *)
Lemma ensure_directories_lookup __file__ self fs r fs' q :
  DatabaseManager._ensure_directories __file__ self fs = (r, fs') →
  fs' !! q = fs !! q
  ∨ (q ∈ default_directories __file__ ∧ fs !! q = None ∧ fs' !! q = Some Dir).
Proof.
  unfold DatabaseManager._ensure_directories, default_directories.
  rewrite !elem_of_cons.
  destruct (mkdir_exist_ok (DATA_DIR __file__) fs) as [r1 fs1] eqn:H1.
  pose proof (mkdir_exist_ok_lookup _ _ _ _ q H1) as L1.
  destruct r1 as [[]|e1].
  2:{ intros [= <- <-]. destruct L1 as [?|(? & ? & ?)]; [by left|right; auto]. }
  destruct (mkdir_exist_ok (CONVERSATIONS_DIR __file__) fs1) as [r2 fs2] eqn:H2.
  pose proof (mkdir_exist_ok_lookup _ _ _ _ q H2) as L2.
  destruct r2 as [[]|e2].
  2:{ intros [= <- <-].
      destruct L1 as [?|(? & ? & ?)], L2 as [?|(? & ? & ?)];
        first [left; congruence | right; split; [auto|split; congruence] | congruence]. }
  intros H3. pose proof (mkdir_exist_ok_lookup _ _ _ _ q H3) as L3.
  destruct L1 as [?|(? & ? & ?)], L2 as [?|(? & ? & ?)], L3 as [?|(? & ? & ?)];
    first [left; congruence | right; split; [auto|split; congruence] | congruence].
Qed.

Lemma mkdir_exist_ok_keeps p fs r fs' q n :
  mkdir_exist_ok p fs = (r, fs') → fs !! q = Some n → fs' !! q = Some n.
Proof.
  intros H Hq. destruct (mkdir_exist_ok_lookup _ _ _ _ q H) as [?|(? & ? & ?)]; congruence.
Qed.

Lemma ensure_directories_Ok __file__ self fs fs' :
  DatabaseManager._ensure_directories __file__ self fs = (Ok tt, fs') →
  Forall (λ q, fs' !! q = Some Dir) (default_directories __file__).
Proof.
  unfold DatabaseManager._ensure_directories, default_directories.
  destruct (mkdir_exist_ok (DATA_DIR __file__) fs) as [[[]|e1] fs1] eqn:H1; [|done].
  destruct (mkdir_exist_ok (CONVERSATIONS_DIR __file__) fs1) as [[[]|e2] fs2] eqn:H2; [|done].
  intros H3.
  pose proof (mkdir_exist_ok_Ok _ _ _ H1) as D1.
  pose proof (mkdir_exist_ok_Ok _ _ _ H2) as D2.
  pose proof (mkdir_exist_ok_Ok _ _ _ H3) as D3.
  repeat constructor; [|by eapply mkdir_exist_ok_keeps|done].
  eapply mkdir_exist_ok_keeps; [done|]. by eapply mkdir_exist_ok_keeps.
Qed.

End Directories.

Section Diagnostics.
Import Pathlib Sqlite Sqlite3 Schema Scope Report CheckDataIntegrity.

Variable __file__ : path.
Variable db_file_size : database → Z.
Variable dir_size : Z.

Local Abbreviation DB_PATH := (CheckDataIntegrity.DB_PATH __file__).
Local Abbreviation LOGS_DIR := (CheckDataIntegrity.LOGS_DIR __file__).
Local Abbreviation main := (CheckDataIntegrity.main __file__ db_file_size dir_size).
Local Abbreviation check_directories := (CheckDataIntegrity.check_directories __file__).
Local Abbreviation check_database :=
  (CheckDataIntegrity.check_database __file__ db_file_size dir_size).
Local Abbreviation check_database_integrity :=
  (CheckDataIntegrity.check_database_integrity __file__).
Local Abbreviation check_log := (CheckDataIntegrity.check_log __file__ db_file_size dir_size).
Local Abbreviation check_logs := (CheckDataIntegrity.check_logs __file__ db_file_size dir_size).
Local Abbreviation get_statistics := (CheckDataIntegrity.get_statistics __file__).
Local Abbreviation suggest_maintenance :=
  (CheckDataIntegrity.suggest_maintenance __file__ db_file_size dir_size).

(** C7. When no file exists at the database path, the script reports
    "Database file not found", skips nothing that follows (integrity
    check, log files, statistics, maintenance suggestions and summary
    all print their sections) and [main] returns 1. *)
Theorem missing_database_report now fs :
  fs !! DB_PATH = None →
  main now fs
  = ( [ print [Str nl; Str Colors.BLUE; Str (times "=" 60)];
        print [Str "IntelliChat Data Integrity Check"];
        print [Str (times "=" 60); Str Colors.RESET];
        print [Str "Timestamp: "; Str now] ]
      ++ (check_directories fs).1
      ++ [ print_header [Str "Checking Database"];
           print_error [Str "Database file not found: "; PathStr DB_PATH];
           print_warning [Str "Run: python scripts/initialize_data.py"] ]
      ++ [ print_header [Str "Database Integrity Check"];
           print_warning [Str "Database doesn't exist, skipping integrity check"] ]
      ++ check_logs fs
      ++ [ print_header [Str "Database Statistics"];
           print_warning [Str "Database doesn't exist"] ]
      ++ suggest_maintenance fs
      ++ [ print_header [Str "Summary"];
           print_warning [Str "Some checks failed"];
           print [Str nl; Str "Recommended actions:"];
           print [Str "1. Review the errors above"];
           print [Str "2. Run: python scripts/initialize_data.py"];
           print [Str "3. Check documentation: data/README.md"] ],
      1%Z ).
Proof.
  intros Hdb. unfold CheckDataIntegrity.main, CheckDataIntegrity.check_database,
    CheckDataIntegrity.check_database_integrity, CheckDataIntegrity.get_statistics.
  rewrite Hdb. destruct (check_directories fs) as [out1 c1].
  cbn [forallb id fst]. rewrite andb_false_r.
  f_equal. rewrite <- !app_assoc. reflexivity.
Qed.

(** C8, amended. For a log file that exists, the report of [check_logs]
    contains for it: above 100MB a warning that the file is large,
    followed by the advice to archive; above 10MB and up to 100MB one
    success line giving the size in MB, no warning; at 10MB or below one
    success line, no warning. *)
Theorem log_size_thresholds fs log_file n :
  log_file ∈ log_files →
  fs !! (LOGS_DIR </> log_file) = Some n →
  let size := st_size db_file_size dir_size n in
  (∀ l, l ∈ check_log fs log_file → l ∈ check_logs fs)
  ∧ ((megabytes 100 < size)%Z →
     check_log fs log_file
     = [ print_warning [Str log_file; Str " is large: "; MegaBytes size; Str " MB"];
         print [Str "  Consider archiving: python scripts/archive_logs.py"] ])
  ∧ ((megabytes 10 < size ≤ megabytes 100)%Z →
     check_log fs log_file
     = [ print_success [Str log_file; Str " exists ("; MegaBytes size; Str " MB)"] ])
  ∧ ((size ≤ megabytes 10)%Z →
     check_log fs log_file
     = [ print_success [Str log_file; Str " exists ("; Fixed0 size; Str " KB)"] ]).
Proof.
  intros Hin Hn size. split.
  { intros l Hl. unfold CheckDataIntegrity.check_logs. right.
    apply list_elem_of_In, in_flat_map. exists log_file.
    by rewrite <- !list_elem_of_In. }
  unfold CheckDataIntegrity.check_log, size_mb_gt, megabytes. rewrite Hn. fold size.
  repeat split; intros H.
  - rewrite (proj2 (Z.ltb_lt _ _)) by lia. done.
  - rewrite (proj2 (Z.ltb_ge _ _)) by lia. rewrite (proj2 (Z.ltb_lt _ _)) by lia. done.
  - rewrite !(proj2 (Z.ltb_ge _ _)) by lia. done.
Qed.
End Diagnostics.

Section Installation.
Import Pathlib Sqlite Sqlite3 Schema Scope Report CheckDataIntegrity.

Variable repo : path.
Variable db_file_size : database → Z.
Variable dir_size : Z.
Local Abbreviation connection_py := (repo ++ ["src"; "database"; "connection.py"]).
Local Abbreviation script_py := (repo ++ ["scripts"; "check_data_integrity.py"]).

Lemma parent_div p name : parent (p </> name) = p.
Proof. unfold parent, div. apply removelast_last. Qed.

Lemma connection_project_root : Connection.PROJECT_ROOT connection_py = repo.
Proof.
  unfold Connection.PROJECT_ROOT.
  replace connection_py with (repo </> "src" </> "database" </> "connection.py")
    by (unfold div; by rewrite <- !app_assoc).
  by rewrite !parent_div.
Qed.

Lemma script_project_root : CheckDataIntegrity.PROJECT_ROOT script_py = repo.
Proof.
  unfold CheckDataIntegrity.PROJECT_ROOT.
  replace script_py with (repo </> "scripts" </> "check_data_integrity.py")
    by (unfold div; by rewrite <- !app_assoc).
  by rewrite !parent_div.
Qed.

Lemma same_paths :
  CheckDataIntegrity.DATA_DIR script_py = Connection.DATA_DIR connection_py
  ∧ CheckDataIntegrity.CONVERSATIONS_DIR script_py
    = Connection.CONVERSATIONS_DIR connection_py
  ∧ CheckDataIntegrity.LOGS_DIR script_py = Connection.DATA_DIR connection_py </> "logs"
  ∧ CheckDataIntegrity.DB_PATH script_py = Connection.DB_PATH connection_py.
Proof.
  unfold CheckDataIntegrity.DB_PATH, CheckDataIntegrity.LOGS_DIR,
    CheckDataIntegrity.CONVERSATIONS_DIR, CheckDataIntegrity.DATA_DIR,
    Connection.DB_PATH, Connection.CONVERSATIONS_DIR, Connection.DATA_DIR.
  by rewrite connection_project_root, script_project_root.
Qed.

Lemma db_path_not_default :
  Connection.DB_PATH connection_py ∉ default_directories connection_py.
Proof.
  unfold default_directories, Connection.DB_PATH, Connection.CONVERSATIONS_DIR,
    Connection.DATA_DIR. rewrite connection_project_root. unfold div.
  rewrite <- !app_assoc. simpl. rewrite !not_elem_of_cons.
  repeat split; [..|apply not_elem_of_nil]; intros H%app_inv_head; discriminate.
Qed.

Local Abbreviation check_database :=
  (CheckDataIntegrity.check_database script_py db_file_size dir_size).
Local Abbreviation check_database_integrity :=
  (CheckDataIntegrity.check_database_integrity script_py).
Local Abbreviation main := (CheckDataIntegrity.main script_py db_file_size dir_size).

(** The constructor, run where no database file was, leaves the three
    directories and a file holding the initialized, empty database. *)
Lemma constructed_installation now fs self fs1 :
  fs !! Connection.DB_PATH connection_py = None →
  Connection.DatabaseManager.__init__ connection_py None now fs = (Ok self, fs1) →
  fs1 !! CheckDataIntegrity.DB_PATH script_py = Some (DbFile initialized_database)
  ∧ fs1 !! CheckDataIntegrity.DATA_DIR script_py = Some Dir
  ∧ fs1 !! CheckDataIntegrity.CONVERSATIONS_DIR script_py = Some Dir
  ∧ fs1 !! CheckDataIntegrity.LOGS_DIR script_py = Some Dir.
Proof.
  intros Hnew. destruct same_paths as (-> & -> & -> & ->).
  unfold Connection.DatabaseManager.__init__. simpl default.
  set (self0 := Connection.DatabaseManager.Self (Connection.DB_PATH connection_py)).
  destruct (Connection.DatabaseManager._ensure_directories connection_py self0 fs)
    as [[[]|e] fs0] eqn:Hdirs; [|done].
  destruct (Connection.DatabaseManager._initialize_database self0 now fs0)
    as [[[[]|e] fs1'] oc] eqn:Hinit; [|done].
  intros [= <- <-].
  apply initialize_database_Ok in Hinit as (n & fs0' & d1 & Hc & Hrun & -> & _).
  assert (fs0 !! Connection.DB_PATH connection_py = None) as Hnew0.
  { destruct (ensure_directories_lookup _ _ _ _ _ (Connection.DB_PATH connection_py) Hdirs)
      as [E|(Hin & _)]; [congruence|]. by apply db_path_not_default in Hin. }
  apply connect_opened in Hc as (n' & [= <-] & [(Hsome & _)|(_ & _ & -> & ->)]).
  { simpl in Hsome. congruence. }
  change (database_of (File 0)) with (Ok (E:=error) empty_database) in Hrun.
  cbn [mbind result_bind] in Hrun.
  rewrite schema_on_empty in Hrun. injection Hrun as <-.
  split; [apply lookup_insert_eq|].
  pose proof (ensure_directories_Ok _ _ _ _ Hdirs) as Hall.
  unfold default_directories in Hall.
  apply Forall_cons in Hall as [D1 Hall]. apply Forall_cons in Hall as [D2 Hall].
  apply Forall_cons in Hall as [D3 _].
  assert (∀ q, q ∈ default_directories connection_py →
               Connection.DB_PATH connection_py ≠ q) as Hne.
  { intros q Hq E. apply db_path_not_default. by rewrite E. }
  unfold default_directories in Hne. simpl Connection.DatabaseManager.db_path.
  repeat split; rewrite !lookup_insert_ne; try done; apply Hne; set_solver.
Qed.

Lemma check_directories_all fs :
  fs !! CheckDataIntegrity.DATA_DIR script_py = Some Dir →
  fs !! CheckDataIntegrity.CONVERSATIONS_DIR script_py = Some Dir →
  fs !! CheckDataIntegrity.LOGS_DIR script_py = Some Dir →
  (CheckDataIntegrity.check_directories script_py fs).2 = true.
Proof.
  intros H1 H2 H3.
  assert (∀ p, fs !! p = Some Dir → exists_ fs p = true) as Hex.
  { intros p Hp. unfold exists_. by rewrite Hp. }
  unfold CheckDataIntegrity.check_directories. cbn [foldl].
  rewrite (Hex _ H1). cbv beta iota. rewrite (Hex _ H2). cbv beta iota.
  by rewrite (Hex _ H3).
Qed.

Lemma report_on_initialized fs :
  fs !! CheckDataIntegrity.DB_PATH script_py = Some (DbFile initialized_database) →
  let size := db_file_size initialized_database in
  check_database fs
  = ( [ print_header [Str "Checking Database"];
        print_success [Str "Database file exists: ";
                       PathStr (CheckDataIntegrity.DB_PATH script_py)];
        print [Str "  Size: "; MegaBytes size; Str " MB (";
               IntComma size; Str " bytes)"];
        print [Str nl; Str "  Tables:"];
        print_success [Str "  "; Str "conversations"];
        print [Str "    Rows: "; Int 0];
        print_success [Str "  "; Str "messages"];
        print [Str "    Rows: "; Int 0];
        print_success [Str "  "; Str "model_usage"];
        print [Str "    Rows: "; Int 0];
        print [Str nl; Str "  Indexes: "; Int 5];
        print [Str "    - "; Str "idx_messages_conversation"];
        print [Str "    - "; Str "idx_conversations_session"];
        print [Str "    - "; Str "idx_messages_timestamp"];
        print [Str "    - "; Str "idx_model_usage_timestamp"];
        print_success [Str "Database structure is valid"] ],
      true )
  ∧ check_database_integrity fs
    = ( [ print_header [Str "Database Integrity Check"];
          print_success [Str "Database integrity: OK"] ],
        true ).
Proof.
  intros Hdb size.
  unfold CheckDataIntegrity.check_database, CheckDataIntegrity.check_database_integrity.
  rewrite Hdb. cbn [st_size database_of]. fold size.
  generalize size (CheckDataIntegrity.DB_PATH script_py). intros sz p.
  split; vm_compute; reflexivity.
Qed.

(** C9. After [DatabaseManager()] has run where no database file was,
    the diagnostic script finds the three directories, reports the three
    required tables present with 0 rows each, reports the integrity
    check as OK, and [main] returns 0. *)
Theorem fresh_installation_report now now' fs self fs1 :
  fs !! Connection.DB_PATH connection_py = None →
  Connection.DatabaseManager.__init__ connection_py None now fs = (Ok self, fs1) →
  ∃ pre rest post,
    main now' fs1
    = ( pre
        ++ [ print [Str nl; Str "  Tables:"];
             print_success [Str "  "; Str "conversations"];
             print [Str "    Rows: "; Int 0];
             print_success [Str "  "; Str "messages"];
             print [Str "    Rows: "; Int 0];
             print_success [Str "  "; Str "model_usage"];
             print [Str "    Rows: "; Int 0] ]
        ++ rest
        ++ [ print_header [Str "Database Integrity Check"];
             print_success [Str "Database integrity: OK"] ]
        ++ post,
        0%Z )
    ∧ (CheckDataIntegrity.check_directories script_py fs1).2 = true
    ∧ (check_database fs1).2 = true
    ∧ (check_database_integrity fs1).2 = true.
Proof.
  intros Hnew Hinit.
  destruct (constructed_installation _ _ _ _ Hnew Hinit) as (Hdb & D1 & D2 & D3).
  destruct (report_on_initialized fs1 Hdb) as [Hcheck Hintegrity].
  pose proof (check_directories_all fs1 D1 D2 D3) as Hdirs.
  unfold CheckDataIntegrity.main. rewrite Hcheck, Hintegrity.
  destruct (CheckDataIntegrity.check_directories script_py fs1) as [out1 c1].
  simpl in Hdirs. subst c1. cbn [forallb id andb snd].
  generalize (CheckDataIntegrity.check_logs script_py db_file_size dir_size fs1)
    (CheckDataIntegrity.get_statistics script_py fs1)
    (CheckDataIntegrity.suggest_maintenance script_py db_file_size dir_size fs1)
    (db_file_size initialized_database) (CheckDataIntegrity.DB_PATH script_py).
  intros logs statistics suggestions size p.
  exists ([ print [Str nl; Str Colors.BLUE; Str (times "=" 60)];
            print [Str "IntelliChat Data Integrity Check"];
            print [Str (times "=" 60); Str Colors.RESET];
            print [Str "Timestamp: "; Str now'] ]
          ++ out1
          ++ [ print_header [Str "Checking Database"];
               print_success [Str "Database file exists: "; PathStr p];
               print [Str "  Size: "; MegaBytes size; Str " MB (";
                      IntComma size; Str " bytes)"] ]),
         [ print [Str nl; Str "  Indexes: "; Int 5];
           print [Str "    - "; Str "idx_messages_conversation"];
           print [Str "    - "; Str "idx_conversations_session"];
           print [Str "    - "; Str "idx_messages_timestamp"];
           print [Str "    - "; Str "idx_model_usage_timestamp"];
           print_success [Str "Database structure is valid"] ],
         (logs ++ statistics ++ suggestions
          ++ [ print_header [Str "Summary"];
               print_success [Str "All checks passed!"];
               print [Str nl; Str "Your IntelliChat data is healthy and ready to use."] ]).
  split; [|done]. f_equal. rewrite <- !app_assoc. reflexivity.
Qed.
End Installation.

Section Witnesses.
Import Pathlib Sqlite Sqlite3 Connection Schema Scope Insertion Report.

Lemma pair_eta {A B} (x : A * B) a : x.1 = a → x = (a, x.2).
Proof. destruct x; simpl; congruence. Qed.

Lemma triple_eta {A B C} (x : A * B * C) a : x.1.1 = a → x = (a, x.1.2, x.2).
Proof. destruct x as [[? ?] ?]; simpl; congruence. Qed.

Lemma result_db_Ok r : is_ok r = true → r = Ok (Example.result_db r).
Proof. by destruct r. Qed.

End Witnesses.

Lemma initialize_database_idempotent_witness :
  Example.first_run = (Ok tt, Example.first_run.1.2, Example.first_run.2)
  ∧ ∃ d1,
      Example.first_run.1.2 !! Connection.DatabaseManager.db_path Example.self
      = Some (Pathlib.DbFile d1)
      ∧ ∀ now' fs2 d2,
          fs2 !! Connection.DatabaseManager.db_path Example.self
          = Some (Pathlib.DbFile d2) →
          Sqlite.sqlite_master d2 = Sqlite.sqlite_master d1 →
          ∃ oc', Connection.DatabaseManager._initialize_database Example.self now' fs2
                 = (Ok tt, fs2, oc').
Proof.
  assert (Example.first_run = (Ok tt, Example.first_run.1.2, Example.first_run.2)) as H
    by (apply triple_eta; vm_compute; reflexivity).
  exact (conj H (initialize_database_idempotent Example.self "2026-01-01 09:00:00"
                   Example.ensured Example.first_run.1.2 Example.first_run.2 H)).
Defined.



Lemma role_constraint_witness :
  Schema.initialized (Sqlite3.working Example.open_connection)
  ∧ (Insertion.supplied "role" Example.bot_message ∉ Insertion.enumerated_roles →
     ∃ e c',
       Sqlite3.execute "2026-01-01 09:06:00"
         (Sqlite.INSERT_INTO "messages" Example.bot_message) Example.open_connection
       = (Err e, c')
       ∧ Sqlite3.working c' = Sqlite3.working Example.open_connection
       ∧ Sqlite3.on_disk c' = Sqlite3.on_disk Example.open_connection)
    ∧ (Insertion.supplied "role" Example.bot_message ∈ Insertion.enumerated_roles →
       ∀ k c',
         Sqlite3.execute "2026-01-01 09:06:00"
           (Sqlite.INSERT_INTO "messages" Example.bot_message) Example.open_connection
         = (Err (sqlite3_Error (Sqlite.IntegrityError k)), c') →
         k ≠ Sqlite.Check "messages" "role" ∧ k ≠ Sqlite.NotNull "messages" "role").
Proof.
  assert (Schema.initialized (Sqlite3.working Example.open_connection)) as H
    by (vm_compute; reflexivity).
  exact (conj H (role_constraint "2026-01-01 09:06:00" Example.bot_message
                   Example.open_connection H)).
Defined.

Lemma insert_message_updates_conversation_witness :
  Schema.initialized Example.one_conversation
  ∧ Sqlite.exec false "2026-01-01 09:05:07"
      (Sqlite.INSERT_INTO "messages" Example.reply) Example.one_conversation
    = Ok (Example.result_db Example.after_reply)
  ∧ ∃ m,
      Sqlite.rows_of (Example.result_db Example.after_reply) "messages"
      = Sqlite.rows_of Example.one_conversation "messages" ++ [m]
      ∧ ∀ c, c ∈ Sqlite.rows_of (Example.result_db Example.after_reply) "conversations" →
             Sqlite.holds "id" (Sqlite.field m "conversation_id") c = true →
             Sqlite.field c "updated_at" = Insertion.timestamp_value "2026-01-01 09:05:07"
             ∧ Sqlite.sql_ge (Sqlite.field c "updated_at") (Sqlite.field m "timestamp")
               = Sqlite.sql_ge (Insertion.timestamp_value "2026-01-01 09:05:07")
                               (Sqlite.field m "timestamp")
             ∧ (Sqlite.assoc "timestamp" Example.reply = None →
                Sqlite.field m "timestamp"
                = Insertion.timestamp_value "2026-01-01 09:05:07"
                ∧ Sqlite.sql_ge (Sqlite.field c "updated_at") (Sqlite.field m "timestamp")
                  = Some true).
Proof.
  assert (Schema.initialized Example.one_conversation) as H1
    by (vm_compute; reflexivity).
  assert (Sqlite.exec false "2026-01-01 09:05:07"
            (Sqlite.INSERT_INTO "messages" Example.reply) Example.one_conversation
          = Ok (Example.result_db Example.after_reply)) as H2
    by (apply result_db_Ok; vm_compute; reflexivity).
  exact (conj H1 (conj H2
           (insert_message_updates_conversation false "2026-01-01 09:05:07"
              Example.one_conversation Example.reply
              (Example.result_db Example.after_reply) H1 H2))).
Defined.


Section Reports.
Import Pathlib CheckDataIntegrity.

Lemma missing_database_report_witness :
  Example.checkout !! DB_PATH Example.check_data_integrity_py = None
  ∧ main Example.check_data_integrity_py Example.ten_pages
      Example.one_block "2026-01-01 08:00:00" Example.checkout
    = ( (
          [ print [Str nl; Str Colors.BLUE; Str (times "=" 60)];
            print [Str "IntelliChat Data Integrity Check"];
            print [Str (times "=" 60); Str Colors.RESET];
            print [Str "Timestamp: "; Str "2026-01-01 08:00:00"] ]
          ++ (check_directories Example.check_data_integrity_py Example.checkout).1
          ++ [ print_header [Str "Checking Database"];
               print_error [Str "Database file not found: ";
                            PathStr (DB_PATH Example.check_data_integrity_py)];
               print_warning [Str "Run: python scripts/initialize_data.py"] ]
          ++ [ print_header [Str "Database Integrity Check"];
               print_warning [Str "Database doesn't exist, skipping integrity check"] ]
          ++ check_logs Example.check_data_integrity_py Example.ten_pages
               Example.one_block Example.checkout
          ++ [ print_header [Str "Database Statistics"];
               print_warning [Str "Database doesn't exist"] ]
          ++ suggest_maintenance Example.check_data_integrity_py Example.ten_pages
               Example.one_block Example.checkout
          ++ [ print_header [Str "Summary"];
               print_warning [Str "Some checks failed"];
               print [Str nl; Str "Recommended actions:"];
               print [Str "1. Review the errors above"];
               print [Str "2. Run: python scripts/initialize_data.py"];
               print [Str "3. Check documentation: data/README.md"] ]),
        1%Z ).
Proof.
  assert (Example.checkout
            !! DB_PATH Example.check_data_integrity_py = None) as H
    by (vm_compute; reflexivity).
  exact (conj H (missing_database_report Example.check_data_integrity_py
                   Example.ten_pages Example.one_block "2026-01-01 08:00:00"
                   Example.checkout H)).
Defined.

Lemma log_size_thresholds_witness :
  "app.log" ∈ log_files
  ∧ Example.with_logs
      !! (div (LOGS_DIR Example.check_data_integrity_py)
                      "app.log")
    = Some (File 20971520)
  ∧ (
      let size := st_size Example.ten_pages Example.one_block (File 20971520) in
      let report := check_log Example.check_data_integrity_py Example.ten_pages
                      Example.one_block Example.with_logs "app.log" in
      (∀ l, l ∈ report →
            l ∈ check_logs Example.check_data_integrity_py Example.ten_pages
                  Example.one_block Example.with_logs)
      ∧ ((Report.megabytes 100 < size)%Z →
         report
         = [ print_warning [Str "app.log"; Str " is large: "; MegaBytes size; Str " MB"];
             print [Str "  Consider archiving: python scripts/archive_logs.py"] ])
      ∧ ((Report.megabytes 10 < size ≤ Report.megabytes 100)%Z →
         report
         = [ print_success [Str "app.log"; Str " exists ("; MegaBytes size; Str " MB)"] ])
      ∧ ((size ≤ Report.megabytes 10)%Z →
         report
         = [ print_success [Str "app.log"; Str " exists ("; Fixed0 size; Str " KB)"] ])).
Proof.
  assert ("app.log" ∈ log_files) as H1
    by (apply (bool_decide_unpack _); vm_compute; exact I).
  assert (Example.with_logs
            !! (div (LOGS_DIR Example.check_data_integrity_py)
                            "app.log")
          = Some (File 20971520)) as H2
    by (vm_compute; reflexivity).
  exact (conj H1 (conj H2
           (log_size_thresholds Example.check_data_integrity_py Example.ten_pages
              Example.one_block Example.with_logs "app.log" (File 20971520)
              H1 H2))).
Defined.

(** C8, as stated, fails: a log file of 20MB, which exceeds 10MB, is
    reported with a success line and the whole log check prints no
    warning. *)
Lemma twenty_megabyte_log_counterexample :
  (Report.megabytes 10 < 20971520)%Z
  ∧ Example.with_logs
      !! (div (LOGS_DIR Example.check_data_integrity_py)
                      "app.log")
    = Some (File 20971520)
  ∧ check_log Example.check_data_integrity_py Example.ten_pages
      Example.one_block Example.with_logs "app.log"
    = (
        [ print_success [Str "app.log"; Str " exists ("; MegaBytes 20971520;
                         Str " MB)"] ])
  ∧ existsb Report.is_warning
      (check_logs Example.check_data_integrity_py Example.ten_pages
         Example.one_block Example.with_logs) = false.
Proof. repeat split; vm_compute; reflexivity. Qed.

Lemma fresh_installation_report_witness :
  Example.checkout !! Connection.DB_PATH Example.connection_py = None
  ∧ Connection.DatabaseManager.__init__ Example.connection_py None
      "2026-01-01 09:00:00" Example.checkout = (Ok Example.self, Example.constructed)
  ∧ (
      ∃ pre rest post,
        main Example.check_data_integrity_py Example.ten_pages Example.one_block
          "2026-01-01 09:30:00" Example.constructed
        = ( pre
            ++ [ print [Str nl; Str "  Tables:"];
                 print_success [Str "  "; Str "conversations"];
                 print [Str "    Rows: "; Int 0];
                 print_success [Str "  "; Str "messages"];
                 print [Str "    Rows: "; Int 0];
                 print_success [Str "  "; Str "model_usage"];
                 print [Str "    Rows: "; Int 0] ]
            ++ rest
            ++ [ print_header [Str "Database Integrity Check"];
                 print_success [Str "Database integrity: OK"] ]
            ++ post,
            0%Z )
        ∧ (check_directories Example.check_data_integrity_py Example.constructed).2
          = true
        ∧ (check_database Example.check_data_integrity_py Example.ten_pages
             Example.one_block Example.constructed).2 = true
        ∧ (check_database_integrity Example.check_data_integrity_py
             Example.constructed).2 = true).
Proof.
  assert (Example.checkout !! Connection.DB_PATH Example.connection_py = None) as H1
    by (vm_compute; reflexivity).
  assert (Connection.DatabaseManager.__init__ Example.connection_py None
            "2026-01-01 09:00:00" Example.checkout
          = (Ok Example.self, Example.constructed)) as H2
    by (unfold Example.constructed; apply pair_eta; vm_compute; reflexivity).
  exact (conj H1 (conj H2
           (fresh_installation_report Example.repo Example.ten_pages Example.one_block
              "2026-01-01 09:00:00" "2026-01-01 09:30:00" Example.checkout
              Example.self Example.constructed H1 H2))).
Defined.
End Reports.

Section Transactions.
Import Pathlib Sqlite Sqlite3 Connection Schema Scope Queries.

Lemma connect_lookup p fs c fs0 :
  connect p fs = (Ok c, fs0) → fs0 !! p = Some (on_disk c).
Proof.
  intros (n & -> & [(Hn & _ & ->)|(_ & _ & -> & ->)])%connect_opened; simpl.
  - done.
  - apply lookup_insert_eq.
Qed.


Lemma execute_dml_on_disk now s c :
  is_dml s = true → on_disk (execute now s c).2 = on_disk c.
Proof.
  intros Hs. unfold execute. simpl. rewrite Hs, orb_true_r.
  destruct (database_of (on_disk c)); [|done].
  by destruct (exec _ _ _ _).
Qed.

(** Without a commit, INSERT and DELETE never reach the file. *)
Lemma quiet_on_disk block : ∀ c,
  forallb quiet block = true → on_disk (run_block block c).2 = on_disk c.
Proof.
  induction block as [|a block IH]; intros c; simpl; [done|].
  intros [Ha Hblock]%andb_prop. destruct a; simpl in Ha; try done.
  - pose proof (execute_dml_on_disk now s c Ha) as Hd.
    destruct (execute now s c) as [[[]|e] c']; simpl in *; [|done].
    by rewrite IH.
  - by rewrite IH.
  - by rewrite IH.
Qed.

(** X1. A scope whose block only inserts and deletes, and which ends with an
    exception of whatever kind, leaves the file system as the opening of
    the connection left it: nothing the block wrote is kept. *)
Theorem get_connection_atomic self block fs c0 fs0 e :
  connect (DatabaseManager.db_path self) fs = (Ok c0, fs0) →
  forallb quiet block = true →
  (DatabaseManager.get_connection self block fs).1.1 = Err e →
  (DatabaseManager.get_connection self block fs).1.2 = fs0
  ∧ (is_Some (fs !! DatabaseManager.db_path self) → fs0 = fs).
Proof.
  intros Hc Hq. unfold DatabaseManager.get_connection. rewrite Hc.
  pose proof (quiet_on_disk block c0 Hq) as Hd.
  pose proof (connect_lookup _ _ _ _ Hc) as Hl.
  destruct (run_block block c0) as [[[]|e'] c1]; simpl in *; [done|].
  intros _. split.
  - destruct (isinstance_Exception e'); simpl; rewrite Hd; by apply insert_id.
  - intros [n Hn]. apply connect_opened in Hc as (n' & _ & [(_ & _ & ->)|(Hnone & _)]);
      [done|congruence].
Qed.





End Transactions.

Section Startup.
Import Pathlib Sqlite Sqlite3 Connection Schema Scope Report.

Lemma mkdir_exist_ok_existing p fs :
  fs !! p = Some Dir → mkdir_exist_ok p fs = (Ok tt, fs).
Proof. unfold mkdir_exist_ok. by intros ->. Qed.

Lemma ensure_directories_existing __file__ self fs :
  Forall (λ q, fs !! q = Some Dir) (default_directories __file__) →
  DatabaseManager._ensure_directories __file__ self fs = (Ok tt, fs).
Proof.
  unfold default_directories. intros H.
  apply Forall_cons in H as [D1 H]. apply Forall_cons in H as [D2 H].
  apply Forall_cons in H as [D3 _].
  unfold DatabaseManager._ensure_directories.
  by rewrite (mkdir_exist_ok_existing _ _ D1), (mkdir_exist_ok_existing _ _ D2),
    (mkdir_exist_ok_existing _ _ D3).
Qed.

Lemma initialize_database_again self now now' fs fs1 oc :
  DatabaseManager._initialize_database self now fs = (Ok tt, fs1, oc) →
  ∃ oc', DatabaseManager._initialize_database self now' fs1 = (Ok tt, fs1, oc').
Proof.
  intros (n & fs0 & d1 & Hc & Hrun & -> & _)%initialize_database_Ok.
  destruct (database_of n) as [d0|] eqn:Hn; [|done]. cbn [mbind result_bind] in Hrun.
  destruct schema_statements_shape as [Hine Hord].
  pose proof (foldM_all_present _ _ _ _ _ Hine Hord Hrun) as Hpresent.
  eexists. apply initialize_database_Ok.
  exists (DbFile d1), (<[DatabaseManager.db_path self := DbFile d1]> fs0), d1.
  split; [|split; [|split; [|reflexivity]]].
  - unfold connect. by rewrite lookup_insert_eq.
  - cbn [database_of mbind result_bind]. by apply foldM_present_id.
  - symmetry. apply insert_id, lookup_insert_eq.
Qed.

(** X3. Starting up twice is safe: once the constructor has succeeded, running
    it again with the same [db_path], at any later time, succeeds and
    leaves the whole file system, directories, schema and rows, as it
    was. *)
Theorem constructor_idempotent __file__ db_path now now' fs self fs1 :
  DatabaseManager.__init__ __file__ db_path now fs = (Ok self, fs1) →
  DatabaseManager.__init__ __file__ db_path now' fs1 = (Ok self, fs1).
Proof.
  unfold DatabaseManager.__init__.
  set (self0 := DatabaseManager.Self (default (DB_PATH __file__) db_path)).
  destruct (DatabaseManager._ensure_directories __file__ self0 fs)
    as [[[]|e] fs0] eqn:Hdirs; [|done].
  destruct (DatabaseManager._initialize_database self0 now fs0)
    as [[[[]|e] fs1'] oc] eqn:Hinit; [|done].
  intros [= <- <-].
  pose proof (ensure_directories_Ok _ _ _ _ Hdirs) as Hall.
  destruct (initialize_database_again _ _ now' _ _ _ Hinit) as [oc' Hagain].
  assert (Forall (λ q, fs1' !! q = Some Dir) (default_directories __file__)) as Hall1.
  { apply initialize_database_Ok in Hinit as (n & fs0' & d1' & Hc & _ & -> & _).
    eapply Forall_impl; [exact Hall|]. intros q Hq. simpl in Hq.
    apply connect_opened in Hc as (n' & _ & [(Hn & Hdir & ->)|(Hnone & _ & _ & ->)]).
    - rewrite lookup_insert_ne; [done|]. intros <-. congruence.
    - rewrite !lookup_insert_ne; [done|..]; intros <-; congruence. }
  rewrite (ensure_directories_existing _ self0 _ Hall1).
  by rewrite Hagain.
Qed.
End Startup.

Section Consistency.
Import Pathlib Sqlite Sqlite3 Connection Schema Scope Insertion Queries Invariants.



Lemma omap_nil {A B} (f : A → option B) (l : list A) x :
  omap f l = [] → x ∈ l → f x = None.
Proof.
  induction l as [|y l IH]; simpl; [by intros _ ?%not_elem_of_nil|].
  destruct (f y) eqn:Hy; [done|].
  intros Hnil [->|Hx]%elem_of_cons; auto.
Qed.

Lemma rows_of_sequence_irrelevant m t s s' tbl :
  rows_of (Database m t s) tbl = rows_of (Database m t s') tbl.
Proof. reflexivity. Qed.




Lemma omap_all_None {A B} (f : A → option B) (l : list A) :
  (∀ x, x ∈ l → f x = None) → omap f l = [].
Proof.
  induction l as [|y l IH]; simpl; [done|]. intros H.
  rewrite (H y) by left. apply IH. intros x Hx. apply H. by right.
Qed.






Lemma sql_eq_false a b :
  a ≠ VNull → b ≠ VNull → is_true (sql_eq a b) = false → a ≠ b.
Proof.
  intros Ha Hb H ->. destruct b; simpl in H; try done;
    by rewrite bool_decide_eq_true_2 in H.
Qed.








End Consistency.
Section Writes.
Import Pathlib Sqlite Sqlite3 Connection Schema Scope Insertion Queries Invariants.
















(** X13. [check_integrity] never reports a missing database.  Where no
    file exists at the database path, in a directory that exists, it
    creates an empty database file and returns True. *)
Theorem check_integrity_of_missing_file self fs :
  fs !! DatabaseManager.db_path self = None →
  fs !! parent (DatabaseManager.db_path self) = Some Dir →
  DatabaseManager.check_integrity self fs
  = (Ok true, <[DatabaseManager.db_path self := File 0]> fs).
Proof.
  intros Hp Hparent. unfold DatabaseManager.check_integrity, connect.
  by rewrite Hp, Hparent.
Qed.
End Writes.
Section Checks.
Import Pathlib Sqlite Sqlite3 Schema Scope Report CheckDataIntegrity Checks.

Variable __file__ : path.
Variable db_file_size : database → Z.
Variable dir_size : Z.

Local Abbreviation DATA_DIR := (CheckDataIntegrity.DATA_DIR __file__).
Local Abbreviation CONVERSATIONS_DIR := (CheckDataIntegrity.CONVERSATIONS_DIR __file__).
Local Abbreviation DB_PATH := (CheckDataIntegrity.DB_PATH __file__).
Local Abbreviation LOGS_DIR := (CheckDataIntegrity.LOGS_DIR __file__).
Local Abbreviation main := (CheckDataIntegrity.main __file__ db_file_size dir_size).
Local Abbreviation check_directories := (CheckDataIntegrity.check_directories __file__).
Local Abbreviation check_database :=
  (CheckDataIntegrity.check_database __file__ db_file_size dir_size).
Local Abbreviation check_database_integrity :=
  (CheckDataIntegrity.check_database_integrity __file__).
Local Abbreviation check_log := (CheckDataIntegrity.check_log __file__ db_file_size dir_size).
Local Abbreviation check_logs := (CheckDataIntegrity.check_logs __file__ db_file_size dir_size).
Local Abbreviation glob_logs := (CheckDataIntegrity.glob_logs __file__).
Local Abbreviation suggest_maintenance :=
  (CheckDataIntegrity.suggest_maintenance __file__ db_file_size dir_size).
Local Abbreviation st_size := (CheckDataIntegrity.st_size db_file_size dir_size).

(** The databases the constructor sets up keep to the reservation,
    whatever their rows. *)
Lemma initialized_reserved d : initialized d → internal_tables_reserved d.
Proof.
  unfold initialized, internal_tables_reserved. intros -> o Ho Hdef.
  let m := eval vm_compute in (sqlite_master initialized_database) in
  change (sqlite_master initialized_database) with m in Ho.
  repeat (apply elem_of_cons in Ho as [->|Ho]); try done.
  by apply not_elem_of_nil in Ho.
Qed.

Lemma listed_table_found d table :
  internal_tables_reserved d →
  table ∈ select_name_from_sqlite_master "table" d →
  table ≠ "sqlite_sequence" →
  ∃ t, find_table d table = Ok t.
Proof.
  unfold select_name_from_sqlite_master, find_table, internal_tables_reserved.
  induction (sqlite_master d) as [|o m IH]; simpl; intros Hres Hin Hne.
  - by apply not_elem_of_nil in Hin.
  - assert (∀ o', o' ∈ m → obj_def o' = InternalTable → obj_name o' = "sqlite_sequence")
      as Hres' by (intros o' Ho'; apply Hres; by right).
    pose proof (Hres o ltac:(left)) as Ho.
    unfold obj_type in Hin.
    destruct (obj_def o) as [cols fks| | | |] eqn:Hdef; simpl in Hin.
    + destruct (String.eqb (obj_name o) table) eqn:E; [by eexists|].
      apply elem_of_cons in Hin as [->|Hin]; [by rewrite String.eqb_refl in E|].
      by apply IH.
    + apply elem_of_cons in Hin as [->|Hin]; [by specialize (Ho eq_refl)|].
      by apply IH.
    + by apply IH.
    + by apply IH.
    + by apply IH.
Qed.

Lemma report_tables_Ok d required :
  internal_tables_reserved d →
  "sqlite_sequence" ∉ required →
  (report_tables (select_name_from_sqlite_master "table" d) required d).2 = Ok tt
  ∧ ∀ table, table ∈ required →
      table ∉ select_name_from_sqlite_master "table" d →
      print_error [Str "  "; Str table; Str " (missing)"]
      ∈ (report_tables (select_name_from_sqlite_master "table" d) required d).1.
Proof.
  intros Hres. induction required as [|table required IH]; intros Hseq.
  - split; [done|]. intros table Hin. by apply not_elem_of_nil in Hin.
  - apply not_elem_of_cons in Hseq as [Hne Hseq]. destruct (IH Hseq) as [IH1 IH2].
    cbn [report_tables]. case_bool_decide as Hin.
    + destruct (listed_table_found d table Hres Hin ltac:(done)) as [t Ht].
      unfold select_count.
      assert (String.eqb table "sqlite_sequence" = false) as ->
        by (apply String.eqb_neq; congruence).
      cbn [andb]. rewrite Ht. cbn [mbind result_bind].
      destruct (report_tables _ required d) as [out r]. simpl in *.
      split; [done|]. intros table' [->|Hin']%elem_of_cons Hmiss; [done|].
      do 2 right. by apply IH2.
    + destruct (report_tables _ required d) as [out r]. simpl in *.
      split; [done|]. intros table' [->|Hin']%elem_of_cons Hmiss; [left|].
      right. by apply IH2.
Qed.

Lemma check_database_on_database fs n d :
  fs !! DB_PATH = Some n →
  database_of n = Ok d →
  internal_tables_reserved d →
  ∃ before after,
    check_database fs
    = (before
       ++ (report_tables (select_name_from_sqlite_master "table" d) required_tables d).1
       ++ after ++ [print_success [Str "Database structure is valid"]],
       true).
Proof.
  intros Hn Hd Hres. unfold CheckDataIntegrity.check_database. rewrite Hn, Hd.
  destruct (report_tables_Ok d required_tables Hres) as [Hok _].
  { unfold required_tables. rewrite !not_elem_of_cons.
    repeat split; [..|apply not_elem_of_nil]; done. }
  destruct (report_tables _ required_tables d) as [rows r]. simpl in Hok.
  subst r. cbv beta iota zeta. cbn [fst snd].
  set (indexes := select_name_from_sqlite_master "index" d).
  exists ([print_header [Str "Checking Database"]]
          ++ [ print_success [Str "Database file exists: "; PathStr DB_PATH];
               print [Str "  Size: "; MegaBytes (st_size n); Str " MB (";
                      IntComma (st_size n); Str " bytes)"] ]
          ++ [print [Str nl; Str "  Tables:"]]),
         ([print [Str nl; Str "  Indexes: "; Int (Z.of_nat (length indexes))]]
          ++ map (λ idx, print [Str "    - "; Str idx])
                 (List.filter (λ idx, negb (startswith idx "sqlite_")) indexes)).
  by f_equal.
Qed.

(** X9. [check_database] asks for no table.  For every file that opens as a
    database it returns True and ends with "Database structure is
    valid"; a required table that is missing only adds an error line. *)
Theorem check_database_accepts_missing_tables fs n d :
  fs !! DB_PATH = Some n →
  database_of n = Ok d →
  internal_tables_reserved d →
  (check_database fs).2 = true
  ∧ last (check_database fs).1
    = Some (print_success [Str "Database structure is valid"])
  ∧ ∀ table, table ∈ required_tables →
      table ∉ select_name_from_sqlite_master "table" d →
      print_error [Str "  "; Str table; Str " (missing)"] ∈ (check_database fs).1.
Proof.
  intros Hn Hd Hres.
  destruct (check_database_on_database fs n d Hn Hd Hres) as (before & after & ->).
  cbn [fst snd]. split; [done|]. split.
  - rewrite !app_assoc. apply last_snoc.
  - intros table Hin Hno. rewrite !elem_of_app. right. left.
    apply (report_tables_Ok d required_tables Hres); [|done..].
    unfold required_tables. rewrite !not_elem_of_cons.
    repeat split; [..|apply not_elem_of_nil]; done.
Qed.

Lemma check_directories_result fs :
  (check_directories fs).2
  = exists_ fs DATA_DIR && exists_ fs CONVERSATIONS_DIR && exists_ fs LOGS_DIR.
Proof.
  unfold CheckDataIntegrity.check_directories. cbn [foldl].
  by destruct (exists_ fs DATA_DIR), (exists_ fs CONVERSATIONS_DIR),
    (exists_ fs LOGS_DIR).
Qed.

Lemma check_database_result fs :
  (∀ n d, fs !! DB_PATH = Some n → database_of n = Ok d → internal_tables_reserved d) →
  (check_database fs).2 = readable fs DB_PATH.
Proof.
  intros Hres. unfold readable.
  destruct (fs !! DB_PATH) as [n|] eqn:Hn.
  - destruct (database_of n) as [d|e] eqn:Hd.
    + by destruct (check_database_on_database fs n d Hn Hd (Hres n d eq_refl Hd))
        as (before & after & ->).
    + unfold CheckDataIntegrity.check_database. by rewrite Hn, Hd.
  - unfold CheckDataIntegrity.check_database. by rewrite Hn.
Qed.

Lemma check_database_integrity_result fs :
  (check_database_integrity fs).2 = sound fs DB_PATH.
Proof.
  unfold CheckDataIntegrity.check_database_integrity, sound.
  destruct (fs !! DB_PATH) as [n|]; [|done].
  destruct (database_of n) as [d|e]; [|done].
  by destruct (String.eqb (pragma_integrity_check d) "ok").
Qed.

(** X10. The exit code of the script.  [main] returns 0 exactly when the
    three directories exist and the database file opens and passes the
    integrity check, and 1 otherwise.  Nothing else counts: not the
    tables the database has or lacks, not the log files, not a failure
    of the statistics. *)
Theorem main_exit_code now fs :
  (∀ n d, fs !! DB_PATH = Some n → database_of n = Ok d → internal_tables_reserved d) →
  (main now fs).2
  = if exists_ fs DATA_DIR && exists_ fs CONVERSATIONS_DIR && exists_ fs LOGS_DIR
       && sound fs DB_PATH
    then 0%Z else 1%Z.
Proof.
  intros Hres. unfold CheckDataIntegrity.main.
  pose proof (check_directories_result fs) as H1.
  pose proof (check_database_result fs Hres) as H2.
  pose proof (check_database_integrity_result fs) as H3.
  destruct (check_directories fs) as [out1 c1].
  destruct (check_database fs) as [out2 c2].
  destruct (check_database_integrity fs) as [out3 c3].
  simpl in H1, H2, H3. subst c1 c2 c3. cbn [forallb id].
  assert (sound fs DB_PATH = true → readable fs DB_PATH = true) as Himp.
  { unfold sound, readable. destruct (fs !! DB_PATH) as [n|]; [|done].
    by destruct (database_of n). }
  destruct (exists_ fs DATA_DIR && exists_ fs CONVERSATIONS_DIR && exists_ fs LOGS_DIR);
    [|done].
  destruct (sound fs DB_PATH); [by rewrite Himp|].
  cbn [andb]. by rewrite andb_false_r.
Qed.

Lemma name_div p file : name (p </> file) = file.
Proof. unfold name, div. apply last_last. Qed.

(** What [LOGS_DIR.glob("*.log")] yields: the entries directly inside the
    logs directory whose name ends in ".log". *)
Lemma elem_of_glob_logs fs p n :
  (p, n) ∈ glob_logs fs
  ↔ fs !! LOGS_DIR = Some Dir
    ∧ ∃ file, p = LOGS_DIR </> file ∧ endswith file ".log" = true ∧ fs !! p = Some n.
Proof.
  unfold CheckDataIntegrity.glob_logs. split.
  - destruct (fs !! LOGS_DIR) as [[| |]|]; try (by intros ?%not_elem_of_nil).
    intros [Hin Hf]%list_elem_of_In%filter_In. split; [done|].
    apply andb_prop in Hf as [Hp%bool_decide_eq_true He].
    exists (name p). split; [done|]. split; [done|].
    by apply elem_of_map_to_list, list_elem_of_In.
  - intros (-> & file & -> & He & Hn).
    apply list_elem_of_In, filter_In. split.
    + by apply list_elem_of_In, elem_of_map_to_list.
    + rewrite name_div, He, andb_true_r. by apply bool_decide_eq_true.
Qed.

Lemma suggestions_printed suggestions (l : line) :
  l ∈ imap (λ i suggestion,
              print ([Str nl; Int (Z.of_nat (S i)); Str ". "] ++ suggestion))
           suggestions →
  l ≠ no_maintenance.
Proof. by intros (i & s & -> & _)%elem_of_lookup_imap. Qed.

(** X11. [suggest_maintenance] prints "No maintenance needed at this time"
    exactly when the database file, if there is one, has at most 100MB,
    and every entry of the logs directory whose name ends in ".log",
    whatever it is called, has at most 50MB. *)
Theorem no_maintenance_needed fs :
  no_maintenance ∈ suggest_maintenance fs
  ↔ (∀ n, fs !! DB_PATH = Some n → (st_size n ≤ megabytes 100)%Z)
    ∧ (fs !! LOGS_DIR = Some Dir →
       ∀ file n, endswith file ".log" = true →
                 fs !! (LOGS_DIR </> file) = Some n →
                 (st_size n ≤ megabytes 50)%Z).
Proof.
  unfold CheckDataIntegrity.suggest_maintenance, size_mb_gt, megabytes.
  set (database_suggestion := match fs !! DB_PATH with Some _ => _ | None => _ end).
  set (log_suggestions := omap _ (glob_logs fs)).
  assert (database_suggestion = []
          ↔ ∀ n, fs !! DB_PATH = Some n → (st_size n ≤ 100 * (1024 * 1024))%Z) as Hdb.
  { unfold database_suggestion. destruct (fs !! DB_PATH) as [n|]; [|by split].
    destruct (100 * (1024 * 1024) <? st_size n)%Z eqn:E.
    - apply Z.ltb_lt in E. split; [done|]. intros H. specialize (H n eq_refl). lia.
    - apply Z.ltb_ge in E. split; [|done]. by intros _ n' [= <-]. }
  assert (log_suggestions = []
          ↔ (fs !! LOGS_DIR = Some Dir →
             ∀ file n, endswith file ".log" = true →
                       fs !! (LOGS_DIR </> file) = Some n →
                       (st_size n ≤ 50 * (1024 * 1024))%Z)) as Hlogs.
  { unfold log_suggestions. split.
    - intros Hnil Hdir file n He Hn.
      assert ((LOGS_DIR </> file, n) ∈ glob_logs fs) as Hin
        by (apply elem_of_glob_logs; eauto 6).
      pose proof (omap_nil _ _ _ Hnil Hin) as Hnone. simpl in Hnone.
      destruct (50 * (1024 * 1024) <? st_size n)%Z eqn:E; [done|].
      by apply Z.ltb_ge in E.
    - intros Hall. apply omap_all_None.
      intros [p n] (Hdir & file & -> & He & Hn)%elem_of_glob_logs. simpl.
      specialize (Hall Hdir file n He Hn).
      by rewrite (proj2 (Z.ltb_ge _ _)). }
  rewrite <- Hdb, <- Hlogs. clear Hdb Hlogs.
  case_bool_decide as Hnil.
  - apply app_eq_nil in Hnil. split; [done|]. intros _. right. left.
  - split.
    + intros [?|Hin]%elem_of_cons; [done|]. by apply suggestions_printed in Hin.
    + intros [-> ->]. done.
Qed.

(** X12. A log of more than 50MB is reported by name, whatever it is called,
    in a numbered suggestion, and then "No maintenance needed" is not
    printed; yet [check_logs], which reads the same size, has no warning
    for it as long as it is one of its three files and has at most
    100MB. *)
Theorem large_log_suggested fs file n :
  fs !! LOGS_DIR = Some Dir →
  endswith file ".log" = true →
  fs !! (LOGS_DIR </> file) = Some n →
  (megabytes 50 < st_size n)%Z →
  (∃ i, print ([Str nl; Int i; Str ". "] ++ log_suggestion file)
        ∈ suggest_maintenance fs)
  ∧ (no_maintenance ∉ suggest_maintenance fs)
  ∧ ((st_size n ≤ megabytes 100)%Z →
     Forall (λ l, is_warning l = false) (check_log fs file)).
Proof.
  intros Hdir He Hn Hsize. unfold megabytes in *.
  unfold CheckDataIntegrity.suggest_maintenance.
  set (database_suggestion := match fs !! DB_PATH with Some _ => _ | None => _ end).
  set (log_suggestions := omap _ (glob_logs fs)).
  assert (log_suggestion file ∈ log_suggestions) as Hin.
  { apply list_elem_of_omap. exists (LOGS_DIR </> file, n). split.
    - apply elem_of_glob_logs. eauto 6.
    - simpl. unfold size_mb_gt. rewrite (proj2 (Z.ltb_lt _ _)) by lia.
      by rewrite name_div. }
  assert (log_suggestion file ∈ database_suggestion ++ log_suggestions) as Hin'
    by (apply elem_of_app; by right).
  case_bool_decide as Hnil; [rewrite Hnil in Hin'; by apply not_elem_of_nil in Hin'|].
  split; [|split].
  - apply list_elem_of_lookup in Hin' as [i Hi].
    exists (Z.of_nat (S i)). right. apply elem_of_lookup_imap. eauto.
  - intros [?|H]%elem_of_cons; [done|]. by apply suggestions_printed in H.
  - intros Hle. unfold CheckDataIntegrity.check_log, size_mb_gt. rewrite Hn.
    rewrite (proj2 (Z.ltb_ge _ _)) by lia. case_match; repeat constructor.
Qed.
End Checks.
Section Scenarios.
Import Pathlib Sqlite Sqlite3 Connection Schema Scope Insertion Queries Invariants.

Lemma connect_written p d fs :
  connect p (<[p := DbFile d]> fs) = (Ok (opened p (DbFile d)), <[p := DbFile d]> fs).
Proof. unfold connect. by rewrite lookup_insert_eq. Qed.


End Scenarios.

Lemma get_connection_atomic_witness :
  Sqlite3.connect (Connection.DatabaseManager.db_path Example.self) Scenario.in_use
  = (Ok (Scope.opened (Connection.DatabaseManager.db_path Example.self)
           (Pathlib.DbFile Scenario.stored)), Scenario.in_use)
  ∧ forallb Queries.quiet Example.failing_block = true
  ∧ (Connection.DatabaseManager.get_connection Example.self Example.failing_block
       Scenario.in_use).1.1 = Err (OtherException "ValueError")
  ∧ (Connection.DatabaseManager.get_connection Example.self Example.failing_block
       Scenario.in_use).1.2 = Scenario.in_use
  ∧ (is_Some (Scenario.in_use !! Connection.DatabaseManager.db_path Example.self) →
     Scenario.in_use = Scenario.in_use).
Proof.
  assert (Sqlite3.connect (Connection.DatabaseManager.db_path Example.self)
            Scenario.in_use
          = (Ok (Scope.opened (Connection.DatabaseManager.db_path Example.self)
                   (Pathlib.DbFile Scenario.stored)), Scenario.in_use)) as H1
    by (exact (connect_written (Connection.DatabaseManager.db_path Example.self)
                 Scenario.stored Example.constructed)).
  assert (forallb Queries.quiet Example.failing_block = true) as H2
    by (vm_compute; reflexivity).
  assert ((Connection.DatabaseManager.get_connection Example.self Example.failing_block
             Scenario.in_use).1.1 = Err (OtherException "ValueError")) as H3
    by (vm_compute; reflexivity).
  exact (conj H1 (conj H2 (conj H3
           (get_connection_atomic Example.self Example.failing_block Scenario.in_use
              (Scope.opened (Connection.DatabaseManager.db_path Example.self)
                 (Pathlib.DbFile Scenario.stored))
              Scenario.in_use (OtherException "ValueError") H1 H2 H3)))).
Defined.


Lemma constructor_idempotent_witness :
  Connection.DatabaseManager.__init__ Example.connection_py None
    "2026-01-01 09:00:00" Example.checkout = (Ok Example.self, Example.constructed)
  ∧ Connection.DatabaseManager.__init__ Example.connection_py None
      "2026-03-01 12:00:00" Example.constructed = (Ok Example.self, Example.constructed).
Proof.
  assert (Connection.DatabaseManager.__init__ Example.connection_py None
            "2026-01-01 09:00:00" Example.checkout
          = (Ok Example.self, Example.constructed)) as H
    by (unfold Example.constructed; apply pair_eta; vm_compute; reflexivity).
  exact (conj H (constructor_idempotent Example.connection_py None
                   "2026-01-01 09:00:00" "2026-03-01 12:00:00" Example.checkout
                   Example.self Example.constructed H)).
Defined.






Lemma check_integrity_of_missing_file_witness :
  Example.ensured !! Connection.DatabaseManager.db_path Example.self = None
  ∧ Example.ensured !! Pathlib.parent (Connection.DatabaseManager.db_path Example.self)
    = Some Pathlib.Dir
  ∧ Connection.DatabaseManager.check_integrity Example.self Example.ensured
    = (Ok true,
       <[Connection.DatabaseManager.db_path Example.self := Pathlib.File 0]>
         Example.ensured).
Proof.
  assert (Example.ensured !! Connection.DatabaseManager.db_path Example.self = None)
    as H1 by (vm_compute; reflexivity).
  assert (Example.ensured
            !! Pathlib.parent (Connection.DatabaseManager.db_path Example.self)
          = Some Pathlib.Dir) as H2
    by (vm_compute; reflexivity).
  exact (conj H1 (conj H2
           (check_integrity_of_missing_file Example.self Example.ensured H1 H2))).
Defined.

Section Checked.
Import Pathlib CheckDataIntegrity.

Lemma check_database_accepts_missing_tables_witness :
  Scenario.empty_database_file !! DB_PATH Example.check_data_integrity_py
  = Some (File 0)
  ∧ Sqlite3.database_of (File 0) = Ok Sqlite.empty_database
  ∧ Checks.internal_tables_reserved Sqlite.empty_database
  ∧ (check_database Example.check_data_integrity_py Example.ten_pages
       Example.one_block Scenario.empty_database_file).2 = true
  ∧ last (check_database Example.check_data_integrity_py Example.ten_pages
            Example.one_block Scenario.empty_database_file).1
    = Some (print_success [Str "Database structure is valid"])
  ∧ ∀ table, table ∈ required_tables →
      table ∉ Sqlite.select_name_from_sqlite_master "table" Sqlite.empty_database →
      print_error [Str "  "; Str table; Str " (missing)"]
      ∈ (check_database Example.check_data_integrity_py Example.ten_pages
           Example.one_block Scenario.empty_database_file).1.
Proof.
  assert (Scenario.empty_database_file !! DB_PATH Example.check_data_integrity_py
          = Some (File 0)) as H1
    by (apply lookup_insert_eq).
  assert (Sqlite3.database_of (File 0) = Ok Sqlite.empty_database) as H2
    by reflexivity.
  assert (Checks.internal_tables_reserved Sqlite.empty_database) as H3
    by (intros o Ho; simpl in Ho; by apply not_elem_of_nil in Ho).
  exact (conj H1 (conj H2 (conj H3
           (check_database_accepts_missing_tables Example.check_data_integrity_py
              Example.ten_pages Example.one_block Scenario.empty_database_file
              (File 0) Sqlite.empty_database H1 H2 H3)))).
Defined.

Lemma main_exit_code_witness :
  (∀ n d, Scenario.empty_database_file !! DB_PATH Example.check_data_integrity_py
          = Some n →
          Sqlite3.database_of n = Ok d → Checks.internal_tables_reserved d)
  ∧ (main Example.check_data_integrity_py Example.ten_pages Example.one_block
       "2026-01-01 08:30:00" Scenario.empty_database_file).2
    = if exists_ Scenario.empty_database_file (DATA_DIR Example.check_data_integrity_py)
         && exists_ Scenario.empty_database_file
              (CONVERSATIONS_DIR Example.check_data_integrity_py)
         && exists_ Scenario.empty_database_file
              (LOGS_DIR Example.check_data_integrity_py)
         && Checks.sound Scenario.empty_database_file
              (DB_PATH Example.check_data_integrity_py)
      then 0%Z else 1%Z.
Proof.
  assert (∀ n d, Scenario.empty_database_file
                   !! DB_PATH Example.check_data_integrity_py = Some n →
                 Sqlite3.database_of n = Ok d → Checks.internal_tables_reserved d) as H.
  { intros n d Hn. unfold Scenario.empty_database_file in Hn.
    rewrite lookup_insert_eq in Hn. injection Hn as <-. simpl. intros [= <-].
    intros o Ho. simpl in Ho. by apply not_elem_of_nil in Ho. }
  exact (conj H (main_exit_code Example.check_data_integrity_py Example.ten_pages
                   Example.one_block "2026-01-01 08:30:00"
                   Scenario.empty_database_file H)).
Defined.

Lemma large_log_suggested_witness :
  Scenario.sixty_megabyte_log !! LOGS_DIR Example.check_data_integrity_py = Some Dir
  ∧ endswith "error.log" ".log" = true
  ∧ Scenario.sixty_megabyte_log
      !! (div (LOGS_DIR Example.check_data_integrity_py) "error.log")
    = Some (File 62914560)
  ∧ (Report.megabytes 50
     < st_size Example.ten_pages Example.one_block (File 62914560))%Z
  ∧ (∃ i, print ([Str nl; Int i; Str ". "] ++ Checks.log_suggestion "error.log")
          ∈ suggest_maintenance Example.check_data_integrity_py Example.ten_pages
              Example.one_block Scenario.sixty_megabyte_log)
  ∧ (Checks.no_maintenance
     ∉ suggest_maintenance Example.check_data_integrity_py Example.ten_pages
         Example.one_block Scenario.sixty_megabyte_log)
  ∧ ((st_size Example.ten_pages Example.one_block (File 62914560)
      ≤ Report.megabytes 100)%Z →
     Forall (λ l, Report.is_warning l = false)
            (check_log Example.check_data_integrity_py Example.ten_pages
               Example.one_block Scenario.sixty_megabyte_log "error.log")).
Proof.
  assert (Scenario.sixty_megabyte_log !! LOGS_DIR Example.check_data_integrity_py
          = Some Dir) as H1
    by (vm_compute; reflexivity).
  assert (endswith "error.log" ".log" = true) as H2 by reflexivity.
  assert (Scenario.sixty_megabyte_log
            !! (div (LOGS_DIR Example.check_data_integrity_py) "error.log")
          = Some (File 62914560)) as H3
    by (apply lookup_insert_eq).
  assert (Report.megabytes 50
          < st_size Example.ten_pages Example.one_block (File 62914560))%Z as H4
    by (vm_compute; reflexivity).
  exact (conj H1 (conj H2 (conj H3 (conj H4
           (large_log_suggested Example.check_data_integrity_py Example.ten_pages
              Example.one_block Scenario.sixty_megabyte_log "error.log"
              (File 62914560) H1 H2 H3 H4))))).
Defined.
End Checked.
